(** * Catalog service: normalization, seeding, lookup and checkout

    A shallow embedding of [main.py]: the record normalizer
    ([_to_id_str], [_format_product]), the three product handlers
    ([list_products], [create_product], [get_product]) and the checkout
    stub ([checkout]), together with the parts of the Python runtime,
    of [bson] and of [pydantic] that these functions rely on.

    Conventions of the embedding
    - a Python [dict] with string keys is a [gmap string pyval];
    - a Python [float] is a binary64 value ([PrimFloat.float]), a Python
      [int] is a [Z];
    - a Python [str] is a [string];
    - a raised exception is the [Raise] case of [result];
    - the module-level store handle [db] is threaded explicitly through
      the handlers, [None] being the sentinel of an unavailable store. *)

From Stdlib Require Import ZArith NArith Floats Ascii String.
From Stdlib.Strings Require Import Byte.
From stdpp Require Import base option gmap strings list pretty.

Local Open Scope Z_scope.

(** ** Exceptions and results *)

Inductive exn : Type :=
| HTTPException (status_code : Z) (detail : string)
| ValidationError
| OverflowError
| AttributeError
| TypeError
| InvalidId
| ServiceUnavailable.

Inductive result (A : Type) : Type :=
| Ok (a : A)
| Raise (e : exn).
Arguments Ok {A} a.
Arguments Raise {A} e.

Definition result_bind {A B} (r : result A) (k : A → result B) : result B :=
  match r with
  | Ok a => k a
  | Raise e => Raise e
  end.

Notation "'try!' x ← r ; k" := (result_bind r (λ x, k))
  (at level 100, x pattern, r at level 99, k at level 100, right associativity).

Fixpoint result_mapM {A B} (f : A → result B) (l : list A) : result (list B) :=
  match l with
  | [] => Ok []
  | a :: l' =>
      try! b ← f a;
      try! bs ← result_mapM f l';
      Ok (b :: bs)
  end.

(** ** The store's native identifier ([bson.ObjectId])

    An identifier wraps a byte string, twelve bytes long when the store
    assigned it.  [str(oid)] is the lowercase hexadecimal rendering of
    these bytes; [ObjectId(s)] accepts a string of length 24 that
    [bytes.fromhex] can decode and raises [InvalidId] otherwise. *)

Module Bson.

Record ObjectId : Type := ObjectId_of_bytes { binary : list byte }.

Definition valid (o : ObjectId) : Prop := length (binary o) = 12%nat.

Definition eqb (a b : ObjectId) : bool :=
  bool_decide (map Byte.to_N (binary a) = map Byte.to_N (binary b)).

(** [binascii.hexlify]: one nibble to its lowercase digit. *)
Definition hex_digit (n : N) : ascii :=
  if (n <? 10)%N then ascii_of_N (48 + n) else ascii_of_N (87 + n).

Fixpoint hexlify (bs : list byte) : string :=
  match bs with
  | [] => ""
  | b :: bs' =>
      String (hex_digit (Byte.to_N b / 16))
        (String (hex_digit (Byte.to_N b mod 16)) (hexlify bs'))
  end.

(** [str(oid)]. *)
Definition to_str (o : ObjectId) : string := hexlify (binary o).

(** Value of a hexadecimal digit, either case. *)
Definition hex_value (c : ascii) : option N :=
  let n := N_of_ascii c in
  if ((48 <=? n) && (n <=? 57))%N then Some (n - 48)%N
  else if ((97 <=? n) && (n <=? 102))%N then Some (n - 87)%N
  else if ((65 <=? n) && (n <=? 70))%N then Some (n - 55)%N
  else None.

(** [Py_ISSPACE]: tab, line feed, vertical tab, form feed, carriage
    return and space. *)
Definition is_space (c : ascii) : bool :=
  let n := N_of_ascii c in
  (((9 <=? n) && (n <=? 13)) || (n =? 32))%N.

(** [bytes.fromhex]: whitespace between two-digit groups is skipped,
    every other character has to pair up into a byte. *)
Fixpoint fromhex (s : string) : option (list byte) :=
  match s with
  | EmptyString => Some []
  | String c rest =>
      if is_space c then fromhex rest
      else
        match rest with
        | EmptyString => None
        | String d rest' =>
            match hex_value c, hex_value d with
            | Some h, Some l =>
                match Byte.of_N (16 * h + l), fromhex rest' with
                | Some b, Some bs => Some (b :: bs)
                | _, _ => None
                end
            | _, _ => None
            end
        end
  end.

(** [ObjectId(s)] for a string argument; [None] stands for [InvalidId]. *)
Definition of_str (s : string) : option ObjectId :=
  if (String.length s =? 24)%nat then ObjectId_of_bytes <$> fromhex s
  else None.

(** The format a client is expected to supply: 24 hexadecimal digits. *)
Fixpoint all_hex (s : string) : bool :=
  match s with
  | EmptyString => true
  | String c rest => bool_decide (is_Some (hex_value c)) && all_hex rest
  end.

Definition well_formed (s : string) : bool :=
  (String.length s =? 24)%nat && all_hex s.

(** Big-endian rendering of a counter on [len] bytes, used by the store
    to hand out identifiers. *)
Fixpoint bytes_of_N (len : nat) (n : N) : list byte :=
  match len with
  | O => []
  | S len' =>
      bytes_of_N len' (n / 256)
        ++ [default Byte.x00 (Byte.of_N (n mod 256))]
  end.

Definition generate (counter : N) : ObjectId :=
  ObjectId_of_bytes (bytes_of_N 12 counter).

End Bson.

(** ** Python numbers

    The arithmetic that [checkout] performs: [float * int], the built-in
    [sum] and the two-argument [round]. *)

Module PyNum.

Inductive number : Type :=
| Int (n : Z)
| Float (x : float).

(** Conversion of an [int] operand to [float]: the nearest binary64
    value, ties to even; an integer that rounds beyond the largest
    finite value raises [OverflowError]. *)
Definition float_of_int (n : Z) : result float :=
  match binary_normalize prec emax n 0 false with
  | S754_infinity _ => Raise OverflowError
  | sf => Ok (SF2Prim sf)
  end.

(** [x * n] for a [float] [x] and an [int] [n]. *)
Definition float_mul_int (x : float) (n : Z) : result float :=
  try! y ← float_of_int n;
  Ok (x * y)%float.

(** Left-to-right accumulation of floats. *)
Definition plain_sum (acc : float) (xs : list float) : float :=
  foldl PrimFloat.add acc xs.

(** [sum(xs)] for a sequence of floats.  The accumulator starts as the
    [int] zero, so an empty sequence gives the integer [0]; the first
    addition [0 + x] produces a float and [float_sum] accumulates the
    remaining items onto it ([plain_sum] up to CPython 3.11, a
    compensated loop in later interpreters). *)
Definition sum (float_sum : float → list float → float) (xs : list float) : number :=
  match xs with
  | [] => Int 0
  | x :: xs' => Float (float_sum (0 + x)%float xs')
  end.

(** Quotient of [a] by [d > 0] rounded to the nearest integer, ties to
    even. *)
Definition div_half_even (a d : Z) : Z :=
  let q := a / d in
  let r := a mod d in
  if 2 * r <? d then q
  else if d <? 2 * r then q + 1
  else if Z.even q then q else q + 1.

(** [round(x, 2)] on a float: the exact value of [x] is rounded to two
    decimal places, ties to even, and the decimal result is converted
    back to the nearest float; the sign is kept, infinities and NaN
    round to themselves. *)
Definition round2_float (x : float) : float :=
  match Prim2SF x with
  | S754_finite s m e =>
      let hundredths :=
        if 0 <=? e then Z.pos m * 100 * 2 ^ e
        else div_half_even (Z.pos m * 100) (2 ^ (- e)) in
      match hundredths with
      | Z.pos p =>
          SF2Prim (SFdiv prec emax (S754_finite s p 0) (S754_finite false 100 0))
      | _ => if s then PrimFloat.neg_zero else PrimFloat.zero
      end
  | _ => x
  end.

(** [round(v, 2)]: an [int] is returned as it is. *)
Definition round2 (v : number) : number :=
  match v with
  | Int n => Int n
  | Float x => Float (round2_float x)
  end.

End PyNum.

(** ** Checkout

    [CheckoutItem] and [CheckoutRequest] are the request models; the
    handler returns a dictionary with five fixed keys, kept here as a
    record. *)

Module CheckoutItem.
Record t : Type := {
  id : string;
  title : string;
  price : float;
  qty : Z;
}.
End CheckoutItem.

Module CheckoutRequest.
Record t : Type := {
  items : list CheckoutItem.t;
  email : option string;
}.
End CheckoutRequest.

Module CheckoutResponse.
Record t : Type := {
  status : string;
  message : string;
  total : PyNum.number;
  currency : string;
  redirect_url : option string;
}.
End CheckoutResponse.

Section Checkout.

(** The interpreter's accumulation of floats inside [sum]. *)
Variable float_sum : float → list float → float.

(** [i.price * i.qty] *)
Definition line_total (i : CheckoutItem.t) : result float :=
  PyNum.float_mul_int (CheckoutItem.price i) (CheckoutItem.qty i).

(** [sum] draws the products from the generator one by one; they have
    no effect besides a possible exception, so they are computed
    first and added up next. *)
Definition checkout (req : CheckoutRequest.t) : result CheckoutResponse.t :=
  try! lines ← result_mapM line_total (CheckoutRequest.items req);
  let total := PyNum.sum float_sum lines in
  Ok {| CheckoutResponse.status := "ok";
        CheckoutResponse.message := "Checkout session created";
        CheckoutResponse.total := PyNum.round2 total;
        CheckoutResponse.currency := "USD";
        CheckoutResponse.redirect_url := None |}.

End Checkout.

(** The order total as the specification words it: the sum of
    [price * qty] over the items, rounded to two places. *)
Definition spec_total (float_sum : float → list float → float)
    (lines : list float) : PyNum.number :=
  PyNum.round2 (PyNum.sum float_sum lines).

(** The quantity of the item converts to a float. *)
Definition qty_convertible (i : CheckoutItem.t) : bool :=
  match PyNum.float_of_int (CheckoutItem.qty i) with
  | Ok _ => true
  | Raise _ => false
  end.

(** The line total of an item whose quantity converts. *)
Definition line_value (i : CheckoutItem.t) : float :=
  match line_total i with
  | Ok x => x
  | Raise _ => PrimFloat.nan
  end.

(** An item the specification wants rejected: a negative price or a
    quantity below one. *)
Definition out_of_range (i : CheckoutItem.t) : bool :=
  (CheckoutItem.price i <? 0)%float || (CheckoutItem.qty i <? 1).

(** ** Raw documents and the typed product record *)

Inductive pyval : Type :=
| VNone
| VBool (b : bool)
| VInt (n : Z)
| VFloat (x : float)
| VStr (s : string)
| VObjectId (o : Bson.ObjectId).

Abbreviation pydict := (gmap string pyval).

Module ProductIn.
Record t : Type := {
  title : string;
  price : float;
  category : string;
  description : option string;
  image : option string;
  in_stock : bool;
}.
End ProductIn.

Module ProductOut.
Record t : Type := {
  title : string;
  price : float;
  category : string;
  description : option string;
  image : option string;
  in_stock : bool;
  id : string;
}.
End ProductOut.

(** What [_to_id_str] and [_format_product] may be handed: [None], a raw
    document, or a product model (which [dict(...)] can iterate). *)
Inductive pyobj : Type :=
| ONone
| ODict (d : pydict)
| OModel (p : ProductOut.t).

Definition of_optional (o : option string) : pyval :=
  match o with
  | Some s => VStr s
  | None => VNone
  end.

(** [dict(p)] for a product model: its fields, by name. *)
Definition ProductOut_items (p : ProductOut.t) : pydict :=
  list_to_map
    [ ("title", VStr (ProductOut.title p));
      ("price", VFloat (ProductOut.price p));
      ("category", VStr (ProductOut.category p));
      ("description", of_optional (ProductOut.description p));
      ("image", of_optional (ProductOut.image p));
      ("in_stock", VBool (ProductOut.in_stock p));
      ("id", VStr (ProductOut.id p)) ].

(** Truth value of an object: [None] and the empty dictionary are falsy,
    a model instance is always truthy. *)
Definition truthy (doc : pyobj) : bool :=
  match doc with
  | ONone => false
  | ODict d => negb (bool_decide (size d = 0%nat))
  | OModel _ => true
  end.

Definition dict_of (doc : pyobj) : pydict :=
  match doc with
  | ONone => ∅
  | ODict d => d
  | OModel p => ProductOut_items p
  end.

(** [d.setdefault(k, v)] *)
Definition setdefault (k : string) (v : pyval) (d : pydict) : pydict :=
  match d !! k with
  | Some _ => d
  | None => <[k := v]> d
  end.

(** The six fields the normalizer defaults, with their defaults. *)
Definition defaults : list (string * pyval) :=
  [ ("title", VStr "Untitled");
    ("price", VFloat 0);
    ("category", VStr "General");
    ("description", VNone);
    ("image", VNone);
    ("in_stock", VBool true) ].

(** Field validation of [pydantic] as far as the program depends on
    it: one validator per declared type, each accepting a value that
    already has that type as it is. *)
Class Pydantic : Type := {
  validate_str : pyval → option string;
  validate_float : pyval → option float;
  validate_bool : pyval → option bool;
  validate_str_exact : ∀ s, validate_str (VStr s) = Some s;
  validate_float_exact : ∀ x, validate_float (VFloat x) = Some x;
  validate_bool_exact : ∀ b, validate_bool (VBool b) = Some b;
}.

(** The validators that accept the declared type only. *)
Definition strict_str (v : pyval) : option string :=
  match v with VStr s => Some s | _ => None end.
Definition strict_float (v : pyval) : option float :=
  match v with VFloat x => Some x | _ => None end.
Definition strict_bool (v : pyval) : option bool :=
  match v with VBool b => Some b | _ => None end.

Definition strict_pydantic : Pydantic :=
  {| validate_str := strict_str;
     validate_float := strict_float;
     validate_bool := strict_bool;
     validate_str_exact := λ _, eq_refl;
     validate_float_exact := λ _, eq_refl;
     validate_bool_exact := λ _, eq_refl |}.

Section Normalizer.

Context `{Pydantic}.

(** [repr] of a float, used when [str] meets one. *)
Variable float_repr : float → string.

(** [str(v)] *)
Definition py_str (v : pyval) : string :=
  match v with
  | VNone => "None"
  | VBool true => "True"
  | VBool false => "False"
  | VInt n => pretty n
  | VFloat x => float_repr x
  | VStr s => s
  | VObjectId o => Bson.to_str o
  end.

Definition _to_id_str (doc : pyobj) : pyobj :=
  if negb (truthy doc) then doc
  else
    let d := dict_of doc in
    match d !! "_id" with
    | None | Some VNone => ODict d
    | Some v => ODict (<["id" := VStr (py_str v)]> (delete "_id" d))
    end.

(** [Optional[str]]: [None] is accepted, anything else is validated as
    a string. *)
Definition validate_optional_str (v : pyval) : option (option string) :=
  match v with
  | VNone => Some None
  | _ => Some <$> validate_str v
  end.

(** A field with a declared default: the default when the key is
    missing, the validated value otherwise. *)
Definition field_or {A} (validate : pyval → option A) (dflt : A)
    (o : option pyval) : option A :=
  match o with
  | None => Some dflt
  | Some v => validate v
  end.

(** Construction of [ProductOut] from the keyword arguments [d]:
    required fields have to be present, every
    present field has to validate, keys that are not fields are
    ignored. *)
Definition ProductOut_init (d : pydict) : result ProductOut.t :=
  let fields :=
    title ← d !! "title" ≫= validate_str;
    price ← d !! "price" ≫= validate_float;
    category ← d !! "category" ≫= validate_str;
    description ← field_or validate_optional_str None (d !! "description");
    image ← field_or validate_optional_str None (d !! "image");
    in_stock ← field_or validate_bool true (d !! "in_stock");
    id ← d !! "id" ≫= validate_str;
    Some {| ProductOut.title := title;
            ProductOut.price := price;
            ProductOut.category := category;
            ProductOut.description := description;
            ProductOut.image := image;
            ProductOut.in_stock := in_stock;
            ProductOut.id := id |} in
  match fields with
  | Some p => Ok p
  | None => Raise ValidationError
  end.

(** The six [setdefault] calls, in source order. *)
Definition fill_defaults (d : pydict) : pydict :=
  setdefault "in_stock" (VBool true)
    (setdefault "image" VNone
      (setdefault "description" VNone
        (setdefault "category" (VStr "General")
          (setdefault "price" (VFloat 0)
            (setdefault "title" (VStr "Untitled") d))))).

Definition _format_product (doc : pyobj) : result ProductOut.t :=
  match _to_id_str doc with
  | ODict d => ProductOut_init (fill_defaults d)
  | ONone => Raise AttributeError
  | OModel _ => Raise AttributeError
  end.

End Normalizer.

(** A document from which a product can be built: it carries an
    identifier (a store [_id], or else a string [id]) and each of the six
    fields is either missing or of its declared type. *)
Definition is_str (v : pyval) : bool :=
  match v with VStr _ => true | _ => false end.
Definition is_float (v : pyval) : bool :=
  match v with VFloat _ => true | _ => false end.
Definition is_bool (v : pyval) : bool :=
  match v with VBool _ => true | _ => false end.
Definition is_optional_str (v : pyval) : bool :=
  match v with VStr _ | VNone => true | _ => false end.

Definition missing_or (check : pyval → bool) (o : option pyval) : bool :=
  match o with
  | None => true
  | Some v => check v
  end.

Definition has_identifier (doc : pydict) : bool :=
  match doc !! "_id" with
  | None | Some VNone =>
      match doc !! "id" with
      | Some (VStr _) => true
      | _ => false
      end
  | Some _ => true
  end.

Definition well_typed (doc : pydict) : bool :=
  has_identifier doc
  && missing_or is_str (doc !! "title")
  && missing_or is_float (doc !! "price")
  && missing_or is_str (doc !! "category")
  && missing_or is_optional_str (doc !! "description")
  && missing_or is_optional_str (doc !! "image")
  && missing_or is_bool (doc !! "in_stock").

(** The keys a product is built from. *)
Definition product_keys : list string :=
  ["_id"; "id"; "title"; "price"; "category"; "description"; "image"; "in_stock"].

(** ** The document store and its adapter *)

Record Database : Type := {
  collections : gmap string (list pydict);
  next_oid : N;
}.

Definition documents (name : string) (s : Database) : list pydict :=
  default [] (collections s !! name).

(** Insertion: the store assigns the identifier and appends the record. *)
Definition insert_one (name : string) (doc : pydict) (s : Database)
    : Bson.ObjectId * Database :=
  let oid := Bson.generate (next_oid s) in
  (oid,
   {| collections :=
        <[name := documents name s ++ [<["_id" := VObjectId oid]> doc]]> (collections s);
      next_oid := N.succ (next_oid s) |}).

Definition has_id (oid : Bson.ObjectId) (doc : pydict) : bool :=
  match doc !! "_id" with
  | Some (VObjectId o) => Bson.eqb o oid
  | _ => false
  end.

(** A handler runs against the module-level handle [db], which is
    [None] when no store is configured; an exception leaves the store as
    it was when it was raised. *)
Definition handler (A : Type) : Type :=
  option Database → result A * option Database.

Definition h_ret {A} (a : A) : handler A := λ db, (Ok a, db).

Definition h_raise {A} (e : exn) : handler A := λ db, (Raise e, db).

Definition h_lift {A} (r : result A) : handler A := λ db, (r, db).

Definition h_bind {A B} (m : handler A) (k : A → handler B) : handler B :=
  λ db,
    match m db with
    | (Ok a, db') => k a db'
    | (Raise e, db') => (Raise e, db')
    end.

Notation "'do!' x ← m ; k" := (h_bind m (λ x, k))
  (at level 100, x pattern, m at level 99, k at level 100, right associativity).

(** [try: m  except Exception: k] *)
Definition h_catch {A} (m : handler A) (k : handler A) : handler A :=
  λ db,
    match m db with
    | (Ok a, db') => (Ok a, db')
    | (Raise _, db') => k db'
    end.

(** [for x in l: f(x)] *)
Fixpoint h_iter {A B} (f : A → handler B) (l : list A) : handler unit :=
  match l with
  | [] => h_ret tt
  | a :: l' => do! _ ← f a; h_iter f l'
  end.

(** Modelled from the spec: [database.get_documents] is imported from a
    module that is not among the sources.  It returns the raw records of
    the named collection, and an empty sequence when the store is
    unavailable. *)
Definition get_documents (name : string) : handler (list pydict) :=
  λ db,
    match db with
    | None => (Ok [], db)
    | Some s => (Ok (documents name s), db)
    end.

(** Modelled from the spec: [database.create_document] is imported from a
    module that is not among the sources.  It stores the record in the
    named collection and returns the identifier the store assigned, in
    string form; on an unavailable store it fails with
    [ServiceUnavailable]. *)
Definition create_document (name : string) (data : pydict) : handler string :=
  λ db,
    match db with
    | None => (Raise ServiceUnavailable, db)
    | Some s =>
        let '(oid, s') := insert_one name data s in
        (Ok (Bson.to_str oid), Some s')
    end.

(** [db[name].find_one({"_id": oid})] *)
Definition find_one (name : string) (oid : Bson.ObjectId) : handler (option pydict) :=
  λ db,
    match db with
    | None => (Raise TypeError, db)
    | Some s => (Ok (List.find (has_id oid) (documents name s)), db)
    end.

(** [db[name].find_one(sort=[("_id", -1)])]: the most recently inserted
    record. *)
Definition find_latest (name : string) : handler (option pydict) :=
  λ db,
    match db with
    | None => (Raise TypeError, db)
    | Some s => (Ok (last (documents name s)), db)
    end.

(** [ObjectId(s)] as an expression that may raise. *)
Definition ObjectId_new (s : string) : result Bson.ObjectId :=
  match Bson.of_str s with
  | Some oid => Ok oid
  | None => Raise InvalidId
  end.

(** Modelled from the spec: [schemas.Product] is imported from a module
    that is not among the sources.  The specification gives a product a
    title, a non-negative price, a category, an optional description and
    an in-stock flag; [model_dump] returns these fields by name. *)
Definition ProductSchema_model_dump (title : string) (description : option string)
    (price : float) (category : string) (in_stock : bool) : result pydict :=
  if (0 <=? price)%float then
    Ok (list_to_map
          [ ("title", VStr title);
            ("description", of_optional description);
            ("price", VFloat price);
            ("category", VStr category);
            ("in_stock", VBool in_stock) ])
  else Raise ValidationError.

(** The demonstration products of [list_products]. *)
Definition seed : result (list pydict) :=
  try! s0 ← ProductSchema_model_dump "Carbon Wallet"
              (Some "Slim carbon fiber wallet with RFID blocking.")
              89 "Accessories" true;
  try! s1 ← ProductSchema_model_dump "Monochrome Sneakers"
              (Some "Minimalist sneakers with premium materials.")
              159 "Footwear" true;
  try! s2 ← ProductSchema_model_dump "Minimal Watch"
              (Some "Matte black timepiece with sapphire glass.")
              129 "Watches" true;
  Ok [ <["image" := VStr "https://images.unsplash.com/photo-1585401586477-2a671e1cae4e?ixlib=rb-4.1.0&w=1600&auto=format&fit=crop&q=80"]> s0;
       <["image" := VStr "https://images.unsplash.com/photo-1519741497674-611481863552?q=80&w=1600&auto=format&fit=crop"]> s1;
       <["image" := VStr "https://images.unsplash.com/photo-1524805444758-089113d48a6d?q=80&w=1600&auto=format&fit=crop"]> s2 ].

Definition of_found (doc : option pydict) : pyobj :=
  match doc with
  | Some d => ODict d
  | None => ONone
  end.

(** ** The product handlers *)

Section Handlers.

Context `{Pydantic}.
Variable float_repr : float → string.

(** Whether the import of [bson.ObjectId] succeeded. *)
Variable has_ObjectId : bool.

Definition format_all (docs : list pydict) : result (list ProductOut.t) :=
  result_mapM (λ doc, _format_product float_repr (ODict doc)) docs.

Definition list_products : handler (list ProductOut.t) :=
  λ db,
    match db with
    | None => (Ok [], db)
    | Some _ =>
        (do! docs ← get_documents "product";
         do! docs ←
           (if (length docs =? 0)%nat then
              do! seed ← h_lift seed;
              do! _ ← h_iter (create_document "product") seed;
              get_documents "product"
            else h_ret docs);
         h_lift (format_all docs)) db
    end.

Definition create_product (product : ProductIn.t) : handler ProductOut.t :=
  λ db,
    match db with
    | None => (Raise (HTTPException 503 "Database not available"), db)
    | Some _ =>
        (do! prod ← h_lift (ProductSchema_model_dump
                              (ProductIn.title product)
                              (ProductIn.description product)
                              (ProductIn.price product)
                              (ProductIn.category product)
                              (ProductIn.in_stock product));
         let prod := <["image" := of_optional (ProductIn.image product)]> prod in
         do! inserted_id ← create_document "product" prod;
         do! doc ←
           (if has_ObjectId then
              do! oid ← h_lift (ObjectId_new inserted_id);
              find_one "product" oid
            else find_latest "product");
         h_lift (_format_product float_repr (of_found doc))) db
    end.

Definition get_product (product_id : string) : handler ProductOut.t :=
  λ db,
    match db with
    | None => (Raise (HTTPException 503 "Database not available"), db)
    | Some _ =>
        (do! doc ←
           (if has_ObjectId then
              h_catch
                (do! oid ← h_lift (ObjectId_new product_id);
                 find_one "product" oid)
                (h_ret None)
            else h_ret None);
         match doc with
         | None => h_raise (HTTPException 404 "Product not found")
         | Some d => h_lift (_format_product float_repr (ODict d))
         end) db
    end.

(** *** Requests served one after the other *)

Inductive request : Type :=
| GetProducts
| PostProduct (product : ProductIn.t)
| GetProduct (product_id : string).

(** The store after a request has been served. *)
Definition serve (r : request) (db : option Database) : option Database :=
  match r with
  | GetProducts => snd (list_products db)
  | PostProduct p => snd (create_product p db)
  | GetProduct i => snd (get_product i db)
  end.

(** *** Listing calls served concurrently

    Between two accesses to the store a listing call holds only local
    data, so a call is a sequence of atomic store accesses: the first
    read, one insertion per seed record, the second read. *)

Inductive listing : Type :=
| Started
| Seeding (remaining : list pydict)
| Returned (r : result (list ProductOut.t)).

Definition finish (docs : result (list pydict) * option Database)
    : listing * option Database :=
  match docs with
  | (Ok docs, db) => (Returned (format_all docs), db)
  | (Raise e, db) => (Returned (Raise e), db)
  end.

Definition listing_step (pc : listing) (db : option Database)
    : listing * option Database :=
  match pc with
  | Started =>
      match db with
      | None => (Returned (Ok []), db)
      | Some _ =>
          match get_documents "product" db with
          | (Ok docs, db') =>
              if (length docs =? 0)%nat then
                match seed with
                | Ok seed => (Seeding seed, db')
                | Raise e => (Returned (Raise e), db')
                end
              else (Returned (format_all docs), db')
          | (Raise e, db') => (Returned (Raise e), db')
          end
      end
  | Seeding (s :: rest) =>
      match create_document "product" s db with
      | (Ok _, db') => (Seeding rest, db')
      | (Raise e, db') => (Returned (Raise e), db')
      end
  | Seeding [] => finish (get_documents "product" db)
  | Returned r => (Returned r, db)
  end.

(** One step of the call at position [i]. *)
Definition system_step (i : nat) (st : list listing * option Database)
    : list listing * option Database :=
  match fst st !! i with
  | Some pc =>
      let '(pc', db') := listing_step pc (snd st) in
      (<[i := pc']> (fst st), db')
  | None => st
  end.

(** A schedule names, step by step, the call that moves next. *)
Definition run_schedule (schedule : list nat) (st : list listing * option Database)
    : list listing * option Database :=
  foldl (λ st i, system_step i st) st schedule.

Definition all_returned (calls : list listing) : bool :=
  forallb (λ pc, match pc with Returned _ => true | _ => false end) calls.

End Handlers.

Definition empty_database : Database :=
  {| collections := ∅; next_oid := 0 |}.

Definition product_count (db : option Database) : nat :=
  match db with
  | Some s => length (documents "product" s)
  | None => 0
  end.

(** The record as the store keeps it, under the identifier drawn from
    counter value [n]. *)
Definition stored (n : N) (doc : pydict) : pydict :=
  <["_id" := VObjectId (Bson.generate n)]> doc.

Fixpoint with_ids (n : N) (docs : list pydict) : list pydict :=
  match docs with
  | [] => []
  | doc :: docs' => stored n doc :: with_ids (N.succ n) docs'
  end.

(** The three demonstration records, field by field. *)
Definition seed_records : list pydict :=
  [ list_to_map
      [ ("title", VStr "Carbon Wallet");
        ("description", VStr "Slim carbon fiber wallet with RFID blocking.");
        ("price", VFloat 89);
        ("category", VStr "Accessories");
        ("in_stock", VBool true);
        ("image", VStr "https://images.unsplash.com/photo-1585401586477-2a671e1cae4e?ixlib=rb-4.1.0&w=1600&auto=format&fit=crop&q=80") ];
    list_to_map
      [ ("title", VStr "Monochrome Sneakers");
        ("description", VStr "Minimalist sneakers with premium materials.");
        ("price", VFloat 159);
        ("category", VStr "Footwear");
        ("in_stock", VBool true);
        ("image", VStr "https://images.unsplash.com/photo-1519741497674-611481863552?q=80&w=1600&auto=format&fit=crop") ];
    list_to_map
      [ ("title", VStr "Minimal Watch");
        ("description", VStr "Matte black timepiece with sapphire glass.");
        ("price", VFloat 129);
        ("category", VStr "Watches");
        ("in_stock", VBool true);
        ("image", VStr "https://images.unsplash.com/photo-1524805444758-089113d48a6d?q=80&w=1600&auto=format&fit=crop") ] ].


(** The products a listing returns right after seeding a store whose
    counter stands at [n]. *)
Definition seed_products (n : N) : list ProductOut.t :=
  [ {| ProductOut.title := "Carbon Wallet";
       ProductOut.price := 89;
       ProductOut.category := "Accessories";
       ProductOut.description := Some "Slim carbon fiber wallet with RFID blocking.";
       ProductOut.image := Some "https://images.unsplash.com/photo-1585401586477-2a671e1cae4e?ixlib=rb-4.1.0&w=1600&auto=format&fit=crop&q=80";
       ProductOut.in_stock := true;
       ProductOut.id := Bson.to_str (Bson.generate n) |};
    {| ProductOut.title := "Monochrome Sneakers";
       ProductOut.price := 159;
       ProductOut.category := "Footwear";
       ProductOut.description := Some "Minimalist sneakers with premium materials.";
       ProductOut.image := Some "https://images.unsplash.com/photo-1519741497674-611481863552?q=80&w=1600&auto=format&fit=crop";
       ProductOut.in_stock := true;
       ProductOut.id := Bson.to_str (Bson.generate (N.succ n)) |};
    {| ProductOut.title := "Minimal Watch";
       ProductOut.price := 129;
       ProductOut.category := "Watches";
       ProductOut.description := Some "Matte black timepiece with sapphire glass.";
       ProductOut.image := Some "https://images.unsplash.com/photo-1524805444758-089113d48a6d?q=80&w=1600&auto=format&fit=crop";
       ProductOut.in_stock := true;
       ProductOut.id := Bson.to_str (Bson.generate (N.succ (N.succ n))) |} ].

(** Every identifier the store holds in the product collection has the
    twelve bytes the store gives an identifier. *)
Definition ids_valid (s : Database) : Prop :=
  ∀ doc o, doc ∈ documents "product" s → doc !! "_id" = Some (VObjectId o) → Bson.valid o.

(** The store after the records of [docs] have been inserted in order. *)
Definition insert_all (name : string) (docs : list pydict) (s : Database) : Database :=
  foldl (λ s doc, (insert_one name doc s).2) s docs.

(** A schedule for [n] concurrent listing calls in which every call
    performs its first read before any call inserts: the calls all see
    the collection as it was, and then run to completion one after the
    other (three insertions and the second read each). *)
Definition racing_schedule (n : nat) : list nat :=
  seq 0 n ++ flat_map (λ i, replicate 4 i) (seq 0 n).

(** The product that [create_product] answers with when the store's
    counter stands at [n]. *)
Definition created_product (n : N) (product : ProductIn.t) : ProductOut.t :=
  {| ProductOut.title := ProductIn.title product;
     ProductOut.price := ProductIn.price product;
     ProductOut.category := ProductIn.category product;
     ProductOut.description := ProductIn.description product;
     ProductOut.image := ProductIn.image product;
     ProductOut.in_stock := ProductIn.in_stock product;
     ProductOut.id := Bson.to_str (Bson.generate n) |}.

(** The record [create_product] hands to the store. *)
Definition created_record (product : ProductIn.t) : pydict :=
  <["image" := of_optional (ProductIn.image product)]>
    (list_to_map
       [ ("title", VStr (ProductIn.title product));
         ("description", of_optional (ProductIn.description product));
         ("price", VFloat (ProductIn.price product));
         ("category", VStr (ProductIn.category product));
         ("in_stock", VBool (ProductIn.in_stock product)) ]).


(** Bookkeeping for concurrent listings: the records a call has still
    to insert, and whether it has yet to read the collection. *)
Definition outstanding (pc : listing) : nat :=
  match pc with
  | Seeding remaining => length remaining
  | _ => 0
  end.

Definition unread (pc : listing) : nat :=
  match pc with
  | Started => 1
  | _ => 0
  end.

(** [k] calls have taken up seeding so far: together they account for
    every record of the collection and every insertion still to come,
    three per call; no call has moved as long as [k] is zero. *)
Definition seeders (k : nat) (st : list listing * option Database) : Prop :=
  ∃ s, st.2 = Some s
       ∧ (length (documents "product" s) + sum_list_with outstanding st.1 = 3 * k)%nat
       ∧ (k + sum_list_with unread st.1 ≤ length st.1)%nat
       ∧ (k = 0%nat → sum_list_with unread st.1 = length st.1).

(** Every record of the list carries a twelve-byte identifier of its
    own: no other position holds the same one. *)
Definition identified (docs : list pydict) : Prop :=
  ∀ i doc, docs !! i = Some doc →
    ∃ o, doc !! "_id" = Some (VObjectId o) ∧ Bson.valid o
         ∧ ∀ j doc', docs !! j = Some doc' → doc' !! "_id" = Some (VObjectId o) → j = i.

(** ** The diagnostic endpoint

    [test_database] reads three things from outside: the attribute
    [name] of the store handle, the outcome of
    [db.list_collection_names()] and two environment variables.  A call
    that raises is kept with the text of its exception. *)

Inductive outcome (A : Type) : Type :=
| Returns (a : A)
| Throws (message : string).
Arguments Returns {A} a.
Arguments Throws {A} message.

Module Diagnostics.
Record t : Type := {
  backend : string;
  database : string;
  database_url : option string;
  database_name : option string;
  connection_status : string;
  collections : list string;
}.

Definition set_database (v : string) (r : t) : t :=
  {| backend := backend r; database := v; database_url := database_url r;
     database_name := database_name r; connection_status := connection_status r;
     collections := collections r |}.

Definition set_database_url (v : option string) (r : t) : t :=
  {| backend := backend r; database := database r; database_url := v;
     database_name := database_name r; connection_status := connection_status r;
     collections := collections r |}.

Definition set_database_name (v : option string) (r : t) : t :=
  {| backend := backend r; database := database r; database_url := database_url r;
     database_name := v; connection_status := connection_status r;
     collections := collections r |}.

Definition set_connection_status (v : string) (r : t) : t :=
  {| backend := backend r; database := database r; database_url := database_url r;
     database_name := database_name r; connection_status := v;
     collections := collections r |}.

Definition set_collections (v : list string) (r : t) : t :=
  {| backend := backend r; database := database r; database_url := database_url r;
     database_name := database_name r; connection_status := connection_status r;
     collections := v |}.
End Diagnostics.

Section TestDatabase.

(** [db.name], [None] when [hasattr(db, 'name')] is false. *)
Variable db_name : Database → outcome (option string).

(** [db.list_collection_names()] *)
Variable list_collection_names : Database → outcome (list string).

(** [os.getenv] *)
Variable getenv : string → option string.

(** Truth value of [os.getenv(k)]: unset and empty are both falsy. *)
Definition env_set (k : string) : bool :=
  match getenv k with
  | None | Some EmptyString => false
  | Some _ => true
  end.

(** [str(e)[:50]] *)
Definition error_text (message : string) : string :=
  String.substring 0 50 message.

Definition initial_response : Diagnostics.t :=
  {| Diagnostics.backend := "✅ Running";
     Diagnostics.database := "❌ Not Available";
     Diagnostics.database_url := None;
     Diagnostics.database_name := None;
     Diagnostics.connection_status := "Not Connected";
     Diagnostics.collections := [] |}.

(** The body of the outer [try], exceptions of the inner [try] already
    handled; [Throws] stands for an exception that reaches the outer
    [except] together with the response as it was updated so far. *)
Definition probe (db : option Database) (response : Diagnostics.t)
    : Diagnostics.t * option string :=
  match db with
  | Some s =>
      let response := Diagnostics.set_database "✅ Available" response in
      let response := Diagnostics.set_database_url (Some "✅ Configured") response in
      match db_name s with
      | Throws message => (response, Some message)
      | Returns name =>
          let response :=
            Diagnostics.set_database_name (Some (default "✅ Connected" name)) response in
          let response := Diagnostics.set_connection_status "Connected" response in
          match list_collection_names s with
          | Returns collections =>
              let response := Diagnostics.set_collections (take 10 collections) response in
              (Diagnostics.set_database "✅ Connected & Working" response, None)
          | Throws message =>
              (Diagnostics.set_database
                 ("⚠️  Connected but Error: " +:+ error_text message) response,
               None)
          end
      end
  | None =>
      (Diagnostics.set_database "⚠️  Available but not initialized" response, None)
  end.

Definition test_database (db : option Database) : Diagnostics.t :=
  let response :=
    match probe db initial_response with
    | (response, None) => response
    | (response, Some message) =>
        Diagnostics.set_database ("❌ Error: " +:+ error_text message) response
    end in
  let response :=
    Diagnostics.set_database_url
      (Some (if env_set "DATABASE_URL" then "✅ Set" else "❌ Not Set")) response in
  Diagnostics.set_database_name
    (Some (if env_set "DATABASE_NAME" then "✅ Set" else "❌ Not Set")) response.

End TestDatabase.

(** ** Sample data *)

Definition sample_oid : Bson.ObjectId := Bson.generate 1715004242.

Definition sample_doc : pydict :=
  {[ "_id" := VObjectId sample_oid; "title" := VStr "Lamp" ]}.

Definition sample_store : Database :=
  {| collections := {[ "product" := [sample_doc] ]}; next_oid := 1715004243 |}.


(** A legacy record: falsy values are present, three fields are missing. *)
Definition legacy_doc : pydict :=
  {[ "_id" := VObjectId sample_oid;
     "title" := VStr "";
     "in_stock" := VBool false;
     "description" := VNone ]}.

Definition demo_request : CheckoutRequest.t :=
  {| CheckoutRequest.items :=
       [ {| CheckoutItem.id := "1"; CheckoutItem.title := "Carbon Wallet";
            CheckoutItem.price := 89; CheckoutItem.qty := 1 |};
         {| CheckoutItem.id := "2"; CheckoutItem.title := "Monochrome Sneakers";
            CheckoutItem.price := 159; CheckoutItem.qty := 2 |} ];
     CheckoutRequest.email := None |}.

(** A negative price and a quantity of zero. *)
Definition refund_request : CheckoutRequest.t :=
  {| CheckoutRequest.items :=
       [ {| CheckoutItem.id := "1"; CheckoutItem.title := "Carbon Wallet";
            CheckoutItem.price := (-5)%float; CheckoutItem.qty := 1 |};
         {| CheckoutItem.id := "2"; CheckoutItem.title := "Minimal Watch";
            CheckoutItem.price := 129; CheckoutItem.qty := 0 |} ];
     CheckoutRequest.email := Some "a@example.org" |}.

(** The same items, sent without an email. *)
Definition anonymous_refund_request : CheckoutRequest.t :=
  {| CheckoutRequest.items := CheckoutRequest.items refund_request;
     CheckoutRequest.email := None |}.

(** A quantity beyond the range of a float. *)
Definition huge_request : CheckoutRequest.t :=
  {| CheckoutRequest.items :=
       [ {| CheckoutItem.id := "1"; CheckoutItem.title := "Carbon Wallet";
            CheckoutItem.price := 89; CheckoutItem.qty := 2 ^ 1024 |} ];
     CheckoutRequest.email := None |}.

(** A string of the right length that [bytes.fromhex] decodes to eleven
    bytes only. *)
Definition padded_id : string := "0123456789abcdef012345  ".

(** A record without any identifier. *)
Definition anonymous_doc : pydict :=
  {[ "title" := VStr "Lamp"; "price" := VFloat 12 ]}.

(** A stored record that also carries a stale [id] and an unknown field. *)
Definition cluttered_doc : pydict :=
  {[ "_id" := VObjectId sample_oid;
     "id" := VStr "stale";
     "title" := VStr "Lamp";
     "price" := VFloat 12;
     "category" := VStr "Lighting";
     "created_at" := VInt 1715004242 ]}.

Definition sample_product : ProductIn.t :=
  {| ProductIn.title := "Desk Lamp";
     ProductIn.price := 49;
     ProductIn.category := "Lighting";
     ProductIn.description := None;
     ProductIn.image := Some "https://example.org/lamp.png";
     ProductIn.in_stock := false |}.

(** [cluttered_doc] without the field the model does not know. *)
Definition tidy_doc : pydict := delete "created_at" cluttered_doc.

(** The store right after the first listing. *)
Definition seeded_store : Database := insert_all "product" seed_records empty_database.

(** A store that answers its probes, with twelve collections. *)
Definition healthy_name (_ : Database) : outcome (option string) := Returns (Some "shop").

Definition twelve_collections (_ : Database) : outcome (list string) :=
  Returns ["a"; "b"; "c"; "d"; "e"; "f"; "g"; "h"; "i"; "j"; "k"; "l"].

(** A store whose listing of collections times out. *)
Definition failing_collections (_ : Database) : outcome (list string) :=
  Throws "localhost:27017: [Errno 111] Connection refused, Timeout: 30s, Topology Description: unknown".

Definition sample_env (k : string) : option string :=
  if String.eqb k "DATABASE_URL" then Some "mongodb://localhost:27017"
  else if String.eqb k "DATABASE_NAME" then Some ""
  else None.

(** ** Round trip of the identifier through its string form *)

Lemma fromhex_pair (c d : ascii) (h l : N) (b : byte) (rest : string) :
  Bson.is_space c = false →
  Bson.hex_value c = Some h →
  Bson.hex_value d = Some l →
  Byte.of_N (16 * h + l) = Some b →
  Bson.fromhex (String c (String d rest)) = (b ::.) <$> Bson.fromhex rest.
Proof.
  intros Hsp Hc Hd Hb. cbn [Bson.fromhex]. rewrite Hsp, Hc, Hd, Hb.
  by destruct (Bson.fromhex rest).
Qed.

Lemma fromhex_hexlify (bs : list byte) : Bson.fromhex (Bson.hexlify bs) = Some bs.
Proof.
  induction bs as [|b bs IH]; [reflexivity|].
  cbn [Bson.hexlify].
  rewrite fromhex_pair with (h := (Byte.to_N b / 16)%N) (l := (Byte.to_N b mod 16)%N) (b := b);
    [by rewrite IH | destruct b; vm_compute; reflexivity ..].
Qed.

Lemma length_hexlify (bs : list byte) :
  String.length (Bson.hexlify bs) = (2 * length bs)%nat.
Proof.
  induction bs as [|b bs IH]; [reflexivity|].
  cbn [Bson.hexlify String.length length]. rewrite IH. lia.
Qed.

Lemma length_bytes_of_N (len : nat) (n : N) : length (Bson.bytes_of_N len n) = len.
Proof.
  revert n. induction len as [|len IH]; intros n; [reflexivity|].
  cbn [Bson.bytes_of_N]. rewrite length_app, IH. cbn. lia.
Qed.

Lemma generate_valid (counter : N) : Bson.valid (Bson.generate counter).
Proof. apply length_bytes_of_N. Qed.

Lemma of_str_to_str (o : Bson.ObjectId) :
  Bson.valid o → Bson.of_str (Bson.to_str o) = Some o.
Proof.
  destruct o as [bs]. unfold Bson.valid, Bson.of_str, Bson.to_str. cbn [Bson.binary].
  intros Hlen. rewrite length_hexlify, Hlen. cbn [Nat.eqb Nat.mul Nat.add].
  by rewrite fromhex_hexlify.
Qed.


Lemma bson_eqb_eq (a b : Bson.ObjectId) : Bson.eqb a b = true ↔ a = b.
Proof.
  unfold Bson.eqb. rewrite bool_decide_eq_true. split; [|by intros ->].
  destruct a as [xs], b as [ys]. cbn [Bson.binary]. intros Heq. f_equal.
  revert ys Heq. induction xs as [|x xs IH]; intros [|y ys] Heq; try done.
  cbn in Heq. injection Heq as Hxy Hrest. f_equal; [|by apply IH].
  apply (f_equal Byte.of_N) in Hxy. rewrite !Byte.of_to_N in Hxy. by injection Hxy.
Qed.

Lemma to_id_str_of_stored (float_repr : float → string) (doc : pydict) (o : Bson.ObjectId) :
  doc !! "_id" = Some (VObjectId o) →
  _to_id_str float_repr (ODict doc)
  = ODict (<["id" := VStr (Bson.to_str o)]> (delete "_id" doc)).
Proof.
  intros Hid. unfold _to_id_str. cbn [truthy dict_of].
  destruct (decide (size doc = 0%nat)) as [Hsz|Hsz].
  - apply map_size_empty_iff in Hsz. subst doc. by rewrite lookup_empty in Hid.
  - rewrite bool_decide_eq_false_2 by done. cbn [negb]. by rewrite Hid.
Qed.

Lemma find_has_id (oid : Bson.ObjectId) (docs : list pydict) (doc : pydict) :
  doc ∈ docs →
  doc !! "_id" = Some (VObjectId oid) →
  ∃ doc', List.find (has_id oid) docs = Some doc' ∧ doc' !! "_id" = Some (VObjectId oid).
Proof.
  intros Hin Hid. induction docs as [|d docs IH]; [by apply elem_of_nil in Hin|].
  cbn [List.find]. destruct (has_id oid d) eqn:Hd.
  - exists d. split; [done|]. unfold has_id in Hd.
    destruct (d !! "_id") as [[| | | | |o]|]; try done.
    by apply bson_eqb_eq in Hd as ->.
  - apply elem_of_cons in Hin as [->|Hin]; [|by apply IH].
    unfold has_id in Hd. rewrite Hid in Hd.
    by rewrite (proj2 (bson_eqb_eq oid oid) eq_refl) in Hd.
Qed.

(** C9. A valid store identifier survives the trip through its string
    form: [ObjectId(str(oid))] is [oid] again.  For a stored record
    whose [_id] is [oid], [_to_id_str] publishes [str(oid)] under [id],
    the constructor turns that string back into [oid], and a lookup by
    that string on a store holding the record finds a record carrying
    the very same identifier. *)
Theorem identifier_round_trip (float_repr : float → string)
    (oid : Bson.ObjectId) (doc : pydict) (s : Database) :
  Bson.valid oid →
  doc !! "_id" = Some (VObjectId oid) →
  doc ∈ documents "product" s →
  Bson.of_str (Bson.to_str oid) = Some oid
  ∧ ObjectId_new (Bson.to_str oid) = Ok oid
  ∧ (∃ d, _to_id_str float_repr (ODict doc) = ODict d
          ∧ d !! "id" = Some (VStr (Bson.to_str oid))
          ∧ d !! "_id" = None)
  ∧ (∃ doc', (do! o ← h_lift (ObjectId_new (Bson.to_str oid));
              find_one "product" o) (Some s) = (Ok (Some doc'), Some s)
             ∧ doc' !! "_id" = Some (VObjectId oid)).
Proof.
  intros Hvalid Hid Hin.
  pose proof (of_str_to_str oid Hvalid) as Hrt.
  assert (ObjectId_new (Bson.to_str oid) = Ok oid) as Hnew
    by (unfold ObjectId_new; by rewrite Hrt).
  split_and!; [done|done|..].
  - eexists. split; [by apply to_id_str_of_stored|].
    split; [by rewrite lookup_insert_eq|].
    rewrite lookup_insert_ne by done. by rewrite lookup_delete_eq.
  - destruct (find_has_id oid _ doc Hin Hid) as (doc' & Hfind & Hid').
    exists doc'. split; [|done].
    unfold h_bind, h_lift, find_one. rewrite Hnew. by rewrite Hfind.
Qed.

Lemma identifier_round_trip_witness :
  Bson.of_str (Bson.to_str sample_oid) = Some sample_oid
  ∧ ObjectId_new (Bson.to_str sample_oid) = Ok sample_oid
  ∧ (∃ d, _to_id_str (λ _, "0.0") (ODict sample_doc) = ODict d
          ∧ d !! "id" = Some (VStr (Bson.to_str sample_oid))
          ∧ d !! "_id" = None)
  ∧ (∃ doc', (do! o ← h_lift (ObjectId_new (Bson.to_str sample_oid));
              find_one "product" o) (Some sample_store) = (Ok (Some doc'), Some sample_store)
             ∧ doc' !! "_id" = Some (VObjectId sample_oid)).
Proof.
  apply (identifier_round_trip (λ _, "0.0") sample_oid sample_doc sample_store).
  - reflexivity.
  - reflexivity.
  - vm_compute. apply list_elem_of_here.
Defined.

(** ** The record normalizer *)

Lemma lookup_setdefault (k k' : string) (v : pyval) (d : pydict) :
  setdefault k v d !! k'
  = if decide (k = k') then Some (default v (d !! k)) else d !! k'.
Proof.
  unfold setdefault. destruct (d !! k) as [w|] eqn:Hk.
  - case_decide; [by subst|done].
  - rewrite lookup_insert. by case_decide.
Qed.

Lemma lookup_fill_defaults_id (d : pydict) : fill_defaults d !! "id" = d !! "id".
Proof.
  unfold fill_defaults. rewrite !lookup_setdefault. by repeat case_decide.
Qed.

Lemma defaults_not_id (k : string) (dflt : pyval) :
  (k, dflt) ∈ defaults → k ≠ "_id" ∧ k ≠ "id".
Proof.
  unfold defaults. intros Hk.
  repeat (apply elem_of_cons in Hk as [[= -> ->]|Hk]; [done|]).
  by apply elem_of_nil in Hk.
Qed.

Lemma lookup_fill_defaults (k : string) (dflt : pyval) (d : pydict) :
  (k, dflt) ∈ defaults → fill_defaults d !! k = Some (default dflt (d !! k)).
Proof.
  intros Hk. unfold fill_defaults, defaults in *.
  repeat (apply elem_of_cons in Hk as [[= -> ->]|Hk];
          [by rewrite !lookup_setdefault|]).
  by apply elem_of_nil in Hk.
Qed.

Section NormalizerFacts.

Context `{Pydantic}.
Variable float_repr : float → string.

Lemma to_id_str_dict (doc : pydict) :
  ∃ d, _to_id_str float_repr (ODict doc) = ODict d
       ∧ (∀ k, k ≠ "_id" → k ≠ "id" → d !! k = doc !! k)
       ∧ d !! "id" = match doc !! "_id" with
                     | None | Some VNone => doc !! "id"
                     | Some v => Some (VStr (py_str float_repr v))
                     end.
Proof.
  unfold _to_id_str. cbn [truthy dict_of].
  destruct (decide (size doc = 0%nat)) as [Hsz|Hsz].
  - rewrite bool_decide_eq_true_2 by done. cbn [negb].
    exists doc. apply map_size_empty_iff in Hsz. subst doc.
    by rewrite !lookup_empty.
  - rewrite bool_decide_eq_false_2 by done. cbn [negb].
    destruct (doc !! "_id") as [v|] eqn:Hid; [|by exists doc].
    destruct v; try by exists doc.
    all: eexists; split; [reflexivity|]; split;
      [ intros k Hk1 Hk2; rewrite lookup_insert_ne by done;
        by rewrite lookup_delete_ne by done
      | by rewrite lookup_insert_eq ].
Qed.

(** The dictionary handed to the model constructor. *)
Lemma format_product_dict (doc : pydict) :
  ∃ d, _format_product float_repr (ODict doc) = ProductOut_init d
       ∧ (∀ k dflt, (k, dflt) ∈ defaults → d !! k = Some (default dflt (doc !! k)))
       ∧ d !! "id" = match doc !! "_id" with
                     | None | Some VNone => doc !! "id"
                     | Some v => Some (VStr (py_str float_repr v))
                     end.
Proof.
  destruct (to_id_str_dict doc) as (d & Hd & Hsame & Hid).
  exists (fill_defaults d). unfold _format_product. rewrite Hd.
  split; [done|]. split.
  - intros k dflt Hk. rewrite (lookup_fill_defaults k dflt) by done.
    destruct (defaults_not_id k dflt Hk). by rewrite Hsame.
  - by rewrite lookup_fill_defaults_id.
Qed.

Lemma validate_optional_str_exact (o : option string) :
  validate_optional_str (of_optional o) = Some o.
Proof.
  destruct o as [s|]; [|done]. cbn. by rewrite validate_str_exact.
Qed.

Lemma ProductOut_init_items (p : ProductOut.t) :
  ProductOut_init (ProductOut_items p) = Ok p.
Proof.
  destruct p as [t pr c de im st i]. unfold ProductOut_init, ProductOut_items.
  cbn [ProductOut.title ProductOut.price ProductOut.category ProductOut.description
       ProductOut.image ProductOut.in_stock ProductOut.id].
  repeat (rewrite lookup_insert_ne by done || rewrite lookup_insert_eq).
  cbn [list_to_map foldr uncurry fst snd].
  repeat first [rewrite lookup_insert_eq | rewrite lookup_insert_ne by done].
  cbn [mbind option_bind field_or].
  rewrite !validate_str_exact, validate_float_exact, validate_bool_exact,
    !validate_optional_str_exact.
  reflexivity.
Qed.

End NormalizerFacts.

Ltac in_defaults :=
  unfold defaults; repeat first [apply list_elem_of_here | apply list_elem_of_further].

Section NormalizerClaims.

Context `{Pydantic}.
Variable float_repr : float → string.

Lemma ProductOut_init_Ok (d : pydict) (p : ProductOut.t) :
  ProductOut_init d = Ok p ↔
    d !! "title" ≫= validate_str = Some (ProductOut.title p)
    ∧ d !! "price" ≫= validate_float = Some (ProductOut.price p)
    ∧ d !! "category" ≫= validate_str = Some (ProductOut.category p)
    ∧ field_or validate_optional_str None (d !! "description")
      = Some (ProductOut.description p)
    ∧ field_or validate_optional_str None (d !! "image") = Some (ProductOut.image p)
    ∧ field_or validate_bool true (d !! "in_stock") = Some (ProductOut.in_stock p)
    ∧ d !! "id" ≫= validate_str = Some (ProductOut.id p).
Proof.
  unfold ProductOut_init. split.
  - destruct (d !! "title" ≫= validate_str) as [t|]; [|done].
    destruct (d !! "price" ≫= validate_float) as [pr|]; [|done].
    destruct (d !! "category" ≫= validate_str) as [c|]; [|done].
    destruct (field_or validate_optional_str None (d !! "description")) as [de|]; [|done].
    destruct (field_or validate_optional_str None (d !! "image")) as [im|]; [|done].
    destruct (field_or validate_bool true (d !! "in_stock")) as [st|]; [|done].
    destruct (d !! "id" ≫= validate_str) as [i|]; [|done].
    cbn. by intros [= <-].
  - intros (-> & -> & -> & -> & -> & -> & ->). cbn. by destruct p.
Qed.

Lemma typed_str (o : option pyval) (dflt : string) :
  missing_or is_str o = true →
  ∃ s, validate_str (default (VStr dflt) o) = Some s.
Proof.
  destruct o as [[]|]; try done; intros _; cbn; eexists; apply validate_str_exact.
Qed.

Lemma typed_float (o : option pyval) (dflt : float) :
  missing_or is_float o = true →
  ∃ x, validate_float (default (VFloat dflt) o) = Some x.
Proof.
  destruct o as [[]|]; try done; intros _; cbn; eexists; apply validate_float_exact.
Qed.

Lemma typed_bool (o : option pyval) (dflt : bool) :
  missing_or is_bool o = true →
  ∃ b, validate_bool (default (VBool dflt) o) = Some b.
Proof.
  destruct o as [[]|]; try done; intros _; cbn; eexists; apply validate_bool_exact.
Qed.

Lemma typed_optional_str (o : option pyval) :
  missing_or is_optional_str o = true →
  ∃ r, validate_optional_str (default VNone o) = Some r.
Proof.
  destruct o as [[]|]; try done; intros _; cbn; try by eexists.
  rewrite validate_str_exact. by eexists.
Qed.

Lemma identifier_str (doc : pydict) :
  has_identifier doc = true →
  ∃ i, match doc !! "_id" with
       | None | Some VNone => doc !! "id"
       | Some v => Some (VStr (py_str float_repr v))
       end = Some (VStr i).
Proof.
  unfold has_identifier.
  destruct (doc !! "_id") as [[]|]; try (by eexists);
    destruct (doc !! "id") as [[]|]; try done; by eexists.
Qed.

(** C1. For every raw document the normalizer hands the model
    constructor a mapping in which each of the six fields holds the
    document's own value when the key is present and the documented
    default when, and only when, the key is absent.  A product that is
    returned has each field built from exactly that value: the default
    for an absent key, the validated value of the document otherwise,
    so that a value already of the declared type (an empty string or
    [False] included) is kept as it is.  A product is returned for
    every document that carries an identifier and whose present fields
    have their declared types. *)
Theorem format_product_populated (doc : pydict) :
  (∃ d, _format_product float_repr (ODict doc) = ProductOut_init d
        ∧ ∀ k dflt, (k, dflt) ∈ defaults →
            (doc !! k = None → d !! k = Some dflt)
            ∧ (∀ v, doc !! k = Some v → d !! k = Some v))
  ∧ (∀ p, _format_product float_repr (ODict doc) = Ok p →
       ((doc !! "title" = None → ProductOut.title p = "Untitled")
        ∧ (∀ v, doc !! "title" = Some v → validate_str v = Some (ProductOut.title p)))
       ∧ ((doc !! "price" = None → ProductOut.price p = 0%float)
          ∧ (∀ v, doc !! "price" = Some v
                  → validate_float v = Some (ProductOut.price p)))
       ∧ ((doc !! "category" = None → ProductOut.category p = "General")
          ∧ (∀ v, doc !! "category" = Some v
                  → validate_str v = Some (ProductOut.category p)))
       ∧ ((doc !! "description" = None → ProductOut.description p = None)
          ∧ (∀ v, doc !! "description" = Some v
                  → validate_optional_str v = Some (ProductOut.description p)))
       ∧ ((doc !! "image" = None → ProductOut.image p = None)
          ∧ (∀ v, doc !! "image" = Some v
                  → validate_optional_str v = Some (ProductOut.image p)))
       ∧ ((doc !! "in_stock" = None → ProductOut.in_stock p = true)
          ∧ (∀ v, doc !! "in_stock" = Some v
                  → validate_bool v = Some (ProductOut.in_stock p))))
  ∧ (∀ p, _format_product float_repr (ODict doc) = Ok p →
       (∀ s, doc !! "title" = Some (VStr s) → ProductOut.title p = s)
       ∧ (∀ x, doc !! "price" = Some (VFloat x) → ProductOut.price p = x)
       ∧ (∀ s, doc !! "category" = Some (VStr s) → ProductOut.category p = s)
       ∧ (∀ o, doc !! "description" = Some (of_optional o)
               → ProductOut.description p = o)
       ∧ (∀ o, doc !! "image" = Some (of_optional o) → ProductOut.image p = o)
       ∧ (∀ b, doc !! "in_stock" = Some (VBool b) → ProductOut.in_stock p = b))
  ∧ (well_typed doc = true → ∃ p, _format_product float_repr (ODict doc) = Ok p).
Proof.
  destruct (format_product_dict float_repr doc) as (d & Hfmt & Hfields & Hid).
  pose proof (Hfields "title" (VStr "Untitled") ltac:(in_defaults)) as Ht.
  pose proof (Hfields "price" (VFloat 0) ltac:(in_defaults)) as Hpr.
  pose proof (Hfields "category" (VStr "General") ltac:(in_defaults)) as Hc.
  pose proof (Hfields "description" VNone ltac:(in_defaults)) as Hde.
  pose proof (Hfields "image" VNone ltac:(in_defaults)) as Him.
  pose proof (Hfields "in_stock" (VBool true) ltac:(in_defaults)) as Hst.
  assert (∀ p, _format_product float_repr (ODict doc) = Ok p →
    validate_str (default (VStr "Untitled") (doc !! "title")) = Some (ProductOut.title p)
    ∧ validate_float (default (VFloat 0) (doc !! "price")) = Some (ProductOut.price p)
    ∧ validate_str (default (VStr "General") (doc !! "category"))
      = Some (ProductOut.category p)
    ∧ validate_optional_str (default VNone (doc !! "description"))
      = Some (ProductOut.description p)
    ∧ validate_optional_str (default VNone (doc !! "image")) = Some (ProductOut.image p)
    ∧ validate_bool (default (VBool true) (doc !! "in_stock"))
      = Some (ProductOut.in_stock p)) as Hvalues.
  { intros p Hp. rewrite Hfmt in Hp. apply ProductOut_init_Ok in Hp.
    rewrite Ht, Hpr, Hc, Hde, Him, Hst in Hp.
    by destruct Hp as (? & ? & ? & ? & ? & ? & _). }
  split_and!.
  - exists d. split; [done|]. intros k dflt Hk.
    rewrite (Hfields k dflt Hk). split; [by intros ->|by intros v ->].
  - intros p Hp. destruct (Hvalues p Hp) as (H1 & H2 & H3 & H4 & H5 & H6).
    split_and!; try (by intros v Hv; rewrite Hv in *).
    + intros Hn. rewrite Hn in H1. cbn in H1. rewrite validate_str_exact in H1.
      by injection H1.
    + intros Hn. rewrite Hn in H2. cbn in H2. rewrite validate_float_exact in H2.
      by injection H2.
    + intros Hn. rewrite Hn in H3. cbn in H3. rewrite validate_str_exact in H3.
      by injection H3.
    + intros Hn. rewrite Hn in H4. cbn in H4. by injection H4.
    + intros Hn. rewrite Hn in H5. cbn in H5. by injection H5.
    + intros Hn. rewrite Hn in H6. cbn in H6. rewrite validate_bool_exact in H6.
      by injection H6.
  - intros p Hp. destruct (Hvalues p Hp) as (H1 & H2 & H3 & H4 & H5 & H6).
    split_and!.
    + intros s Hs. rewrite Hs in H1. cbn in H1. rewrite validate_str_exact in H1.
      by injection H1.
    + intros x Hx. rewrite Hx in H2. cbn in H2. rewrite validate_float_exact in H2.
      by injection H2.
    + intros s Hs. rewrite Hs in H3. cbn in H3. rewrite validate_str_exact in H3.
      by injection H3.
    + intros o Ho. rewrite Ho in H4. cbn [default from_option id] in H4.
      rewrite validate_optional_str_exact in H4. by injection H4.
    + intros o Ho. rewrite Ho in H5. cbn [default from_option id] in H5.
      rewrite validate_optional_str_exact in H5. by injection H5.
    + intros b Hb. rewrite Hb in H6. cbn in H6. rewrite validate_bool_exact in H6.
      by injection H6.
  - unfold well_typed. rewrite !andb_true_iff.
    intros ((((((Hident & Wt) & Wpr) & Wc) & Wde) & Wim) & Wst).
    destruct (typed_str _ "Untitled" Wt) as [t Et].
    destruct (typed_float _ 0%float Wpr) as [pr Epr].
    destruct (typed_str _ "General" Wc) as [c Ec].
    destruct (typed_optional_str _ Wde) as [de Ede].
    destruct (typed_optional_str _ Wim) as [im Eim].
    destruct (typed_bool _ true Wst) as [st Est].
    destruct (identifier_str doc Hident) as [i Ei].
    rewrite Ei in Hid. rewrite Hfmt.
    exists {| ProductOut.title := t; ProductOut.price := pr;
              ProductOut.category := c; ProductOut.description := de;
              ProductOut.image := im; ProductOut.in_stock := st;
              ProductOut.id := i |}.
    apply ProductOut_init_Ok.
    rewrite Ht, Hpr, Hc, Hde, Him, Hst, Hid.
    cbn [mbind option_bind field_or ProductOut.title ProductOut.price
         ProductOut.category ProductOut.description ProductOut.image
         ProductOut.in_stock ProductOut.id].
    by rewrite Et, Epr, Ec, Ede, Eim, Est, validate_str_exact.
Qed.

Lemma items_no_native_id (p : ProductOut.t) : ProductOut_items p !! "_id" = None.
Proof. by destruct p. Qed.

Lemma items_nonempty (p : ProductOut.t) : size (ProductOut_items p) ≠ 0%nat.
Proof.
  intros Hsz. apply map_size_empty_iff in Hsz.
  assert (ProductOut_items p !! "id" = Some (VStr (ProductOut.id p))) as Hid
    by by destruct p.
  by rewrite Hsz, lookup_empty in Hid.
Qed.

Lemma to_id_str_model (p : ProductOut.t) :
  _to_id_str float_repr (OModel p) = ODict (ProductOut_items p).
Proof.
  unfold _to_id_str. cbn [truthy negb dict_of]. by rewrite items_no_native_id.
Qed.

Lemma to_id_str_items (p : ProductOut.t) :
  _to_id_str float_repr (ODict (ProductOut_items p)) = ODict (ProductOut_items p).
Proof.
  unfold _to_id_str. cbn [truthy dict_of].
  rewrite bool_decide_eq_false_2 by apply items_nonempty.
  cbn [negb]. by rewrite items_no_native_id.
Qed.

Lemma fill_defaults_items (p : ProductOut.t) :
  fill_defaults (ProductOut_items p) = ProductOut_items p.
Proof. by destruct p. Qed.

(** C2. Normalization is idempotent: whenever the normalizer returns a
    product [p] for a document, normalizing [p] again (the model
    itself, or the record holding its fields) returns [p]; on such a
    record the six defaulting steps change nothing. *)
Theorem format_product_idempotent (doc : pyobj) (p : ProductOut.t) :
  _format_product float_repr doc = Ok p →
  _format_product float_repr (OModel p) = Ok p
  ∧ _format_product float_repr (ODict (ProductOut_items p)) = Ok p
  ∧ fill_defaults (ProductOut_items p) = ProductOut_items p.
Proof.
  intros _. unfold _format_product.
  rewrite to_id_str_model, to_id_str_items, fill_defaults_items.
  by rewrite ProductOut_init_items.
Qed.

End NormalizerClaims.

Lemma format_product_populated_witness :
  well_typed legacy_doc = true
  ∧ ∃ p, _format_product (H := strict_pydantic) (λ _, "0.0") (ODict legacy_doc) = Ok p
         ∧ ProductOut.title p = ""
         ∧ ProductOut.in_stock p = false
         ∧ ProductOut.description p = None
         ∧ ProductOut.price p = 0%float
         ∧ ProductOut.category p = "General"
         ∧ ProductOut.image p = None.
Proof.
  split; [reflexivity|].
  destruct (format_product_populated (H := strict_pydantic) (λ _, "0.0") legacy_doc)
    as (_ & Hfill & Hkeep & Hreturns).
  destruct (Hreturns eq_refl) as [p Hp]. exists p.
  destruct (Hfill p Hp) as (_ & (Hprice & _) & (Hcat & _) & _ & (Himg & _) & _).
  destruct (Hkeep p Hp) as (Htitle & _ & _ & Hdesc & _ & Hstock).
  split; [exact Hp|].
  split; [apply Htitle; reflexivity|].
  split; [apply Hstock; reflexivity|].
  split; [apply (Hdesc None); reflexivity|].
  split; [apply Hprice; reflexivity|].
  split; [apply Hcat; reflexivity|].
  apply Himg; reflexivity.
Defined.

Lemma format_product_idempotent_witness :
  ∃ p, _format_product (H := strict_pydantic) (λ _, "0.0") (ODict legacy_doc) = Ok p
       ∧ _format_product (H := strict_pydantic) (λ _, "0.0") (OModel p) = Ok p
       ∧ _format_product (H := strict_pydantic) (λ _, "0.0") (ODict (ProductOut_items p))
         = Ok p.
Proof.
  eexists. split; [vm_compute; reflexivity|].
  destruct (format_product_idempotent (H := strict_pydantic) (λ _, "0.0")
              (ODict legacy_doc) _ ltac:(vm_compute; reflexivity)) as (Hm & Hd & _).
  split; [exact Hm|exact Hd].
Defined.

(** ** Checkout *)

Section CheckoutFacts.

Variable float_sum : float → list float → float.

Lemma line_total_convertible (i : CheckoutItem.t) :
  qty_convertible i = true → line_total i = Ok (line_value i).
Proof.
  unfold qty_convertible, line_value, line_total, PyNum.float_mul_int.
  by destruct (PyNum.float_of_int (CheckoutItem.qty i)).
Qed.

Lemma line_total_raises (i : CheckoutItem.t) (e : exn) :
  line_total i = Raise e → e = OverflowError.
Proof.
  unfold line_total, PyNum.float_mul_int, PyNum.float_of_int.
  destruct (binary_normalize _ _ _ _ _); cbn; congruence.
Qed.

Lemma line_totals_convertible (l : list CheckoutItem.t) :
  Forall (λ i, qty_convertible i = true) l →
  result_mapM line_total l = Ok (line_value <$> l).
Proof.
  induction 1 as [|i l Hi _ IH]; [done|].
  cbn [result_mapM]. rewrite (line_total_convertible i Hi). cbn [result_bind].
  by rewrite IH.
Qed.

Lemma line_totals_raise (l : list CheckoutItem.t) (e : exn) :
  result_mapM line_total l = Raise e → e = OverflowError.
Proof.
  induction l as [|i l IH]; [done|]. cbn [result_mapM].
  destruct (line_total i) as [x|e'] eqn:Hi; cbn [result_bind].
  - destruct (result_mapM line_total l); cbn [result_bind]; [done|].
    intros [= <-]. by apply IH.
  - intros [= <-]. by apply line_total_raises in Hi.
Qed.

(** The response for a request whose quantities all convert. *)
Lemma checkout_returns (req : CheckoutRequest.t) :
  Forall (λ i, qty_convertible i = true) (CheckoutRequest.items req) →
  checkout float_sum req
  = Ok {| CheckoutResponse.status := "ok";
          CheckoutResponse.message := "Checkout session created";
          CheckoutResponse.total :=
            spec_total float_sum (line_value <$> CheckoutRequest.items req);
          CheckoutResponse.currency := "USD";
          CheckoutResponse.redirect_url := None |}.
Proof.
  intros Hconv. unfold checkout. by rewrite (line_totals_convertible _ Hconv).
Qed.

Lemma checkout_raises (req : CheckoutRequest.t) (e : exn) :
  checkout float_sum req = Raise e → e = OverflowError.
Proof.
  unfold checkout. destruct (result_mapM line_total _) eqn:Hl; [done|].
  cbn [result_bind]. intros [= <-]. by apply line_totals_raise in Hl.
Qed.

(** An item whose quantity does not convert makes the whole request
    fail. *)
Lemma checkout_overflows (req : CheckoutRequest.t) :
  Exists (λ i, qty_convertible i = false) (CheckoutRequest.items req) →
  checkout float_sum req = Raise OverflowError.
Proof.
  intros Hex. destruct (checkout float_sum req) as [r|e] eqn:Hc.
  - exfalso. unfold checkout in Hc.
    destruct (result_mapM line_total (CheckoutRequest.items req)) as [xs|] eqn:Hl;
      [clear Hc|done].
    revert xs Hl. induction Hex as [i l Hi|i l _ IH]; intros xs; cbn [result_mapM].
    + unfold qty_convertible in Hi. unfold line_total, PyNum.float_mul_int.
      by destruct (PyNum.float_of_int (CheckoutItem.qty i)).
    + destruct (line_total i); [|done]. cbn [result_bind].
      destruct (result_mapM line_total l) as [ys|]; [|done]. intros _. by eapply IH.
  - by apply checkout_raises in Hc as ->.
Qed.

(** C3. A quantity too large to convert to a float makes [checkout]
    raise [OverflowError] at [i.price * i.qty]: no total is returned
    for this sequence of items. *)
Theorem checkout_huge_quantity :
  checkout float_sum huge_request = Raise OverflowError.
Proof. reflexivity. Qed.

(** C4, as amended. [checkout] applies no range check: it never fails
    with [ValidationError], whatever the prices and quantities; the
    only exception it can raise is [OverflowError].  A request whose
    quantities convert to floats is answered with status ["ok"], the
    rounded sum of [price * qty], ["USD"] and no redirect, items with a
    negative price or a quantity below one included. *)
Theorem checkout_applies_no_range_check (req : CheckoutRequest.t) :
  checkout float_sum req ≠ Raise ValidationError
  ∧ (∀ e, checkout float_sum req = Raise e → e = OverflowError)
  ∧ (Forall (λ i, qty_convertible i = true) (CheckoutRequest.items req) →
     checkout float_sum req
     = Ok {| CheckoutResponse.status := "ok";
             CheckoutResponse.message := "Checkout session created";
             CheckoutResponse.total :=
               spec_total float_sum (line_value <$> CheckoutRequest.items req);
             CheckoutResponse.currency := "USD";
             CheckoutResponse.redirect_url := None |}).
Proof.
  split_and!.
  - intros Hr. by apply checkout_raises in Hr.
  - apply checkout_raises.
  - apply checkout_returns.
Qed.

(** C10. The response of [checkout] does not depend on the contact
    email: two requests with the same sequence of items get the same
    outcome (the same response, or the same exception), whatever
    their emails are. *)
Theorem checkout_ignores_email (r1 r2 : CheckoutRequest.t) :
  CheckoutRequest.items r1 = CheckoutRequest.items r2 →
  checkout float_sum r1 = checkout float_sum r2.
Proof.
  intros Hitems. unfold checkout. rewrite Hitems. reflexivity.
Qed.

End CheckoutFacts.

(** The example of the specification: 89 * 1 + 159 * 2 = 407.00. *)
Lemma checkout_demo_total :
  checkout PyNum.plain_sum demo_request
  = Ok {| CheckoutResponse.status := "ok";
          CheckoutResponse.message := "Checkout session created";
          CheckoutResponse.total := PyNum.Float 407;
          CheckoutResponse.currency := "USD";
          CheckoutResponse.redirect_url := None |}.
Proof. vm_compute. reflexivity. Qed.

Lemma checkout_negative_price_accepted :
  Exists (λ i, out_of_range i = true) (CheckoutRequest.items refund_request)
  ∧ checkout PyNum.plain_sum refund_request ≠ Raise ValidationError
  ∧ checkout PyNum.plain_sum refund_request
    = Ok {| CheckoutResponse.status := "ok";
            CheckoutResponse.message := "Checkout session created";
            CheckoutResponse.total := PyNum.Float (-5);
            CheckoutResponse.currency := "USD";
            CheckoutResponse.redirect_url := None |}.
Proof.
  split; [apply Exists_cons_hd; reflexivity|].
  split; [vm_compute; discriminate|vm_compute; reflexivity].
Qed.

Lemma checkout_ignores_email_witness :
  CheckoutRequest.email refund_request ≠ CheckoutRequest.email anonymous_refund_request
  ∧ checkout PyNum.plain_sum refund_request
    = checkout PyNum.plain_sum anonymous_refund_request.
Proof.
  split; [discriminate|].
  apply (checkout_ignores_email PyNum.plain_sum refund_request anonymous_refund_request).
  reflexivity.
Defined.

Lemma checkout_applies_no_range_check_witness :
  Forall (λ i, qty_convertible i = true) (CheckoutRequest.items refund_request)
  ∧ checkout PyNum.plain_sum refund_request
    = Ok {| CheckoutResponse.status := "ok";
            CheckoutResponse.message := "Checkout session created";
            CheckoutResponse.total :=
              spec_total PyNum.plain_sum
                (line_value <$> CheckoutRequest.items refund_request);
            CheckoutResponse.currency := "USD";
            CheckoutResponse.redirect_url := None |}.
Proof.
  assert (Forall (λ i, qty_convertible i = true) (CheckoutRequest.items refund_request))
    as Hconv by (repeat constructor).
  split; [exact Hconv|].
  exact (proj2 (proj2 (checkout_applies_no_range_check PyNum.plain_sum refund_request)) Hconv).
Defined.

(** ** The store *)

Lemma seed_eq : seed = Ok seed_records.
Proof. vm_compute. reflexivity. Qed.


Lemma documents_insert_one (name : string) (doc : pydict) (s : Database) :
  documents name (insert_one name doc s).2
  = documents name s ++ [stored (next_oid s) doc].
Proof.
  unfold insert_one, documents at 1. cbn [snd collections].
  by rewrite lookup_insert_eq.
Qed.

Lemma next_oid_insert_one (name : string) (doc : pydict) (s : Database) :
  next_oid (insert_one name doc s).2 = N.succ (next_oid s).
Proof. reflexivity. Qed.

Lemma documents_insert_all (name : string) (docs : list pydict) (s : Database) :
  documents name (insert_all name docs s) = documents name s ++ with_ids (next_oid s) docs.
Proof.
  revert s. induction docs as [|doc docs IH]; intros s.
  - cbn. by rewrite app_nil_r.
  - cbn [insert_all foldl with_ids]. fold (insert_all name docs (insert_one name doc s).2).
    rewrite IH, documents_insert_one, next_oid_insert_one. by rewrite <- app_assoc.
Qed.

Lemma length_with_ids (n : N) (docs : list pydict) :
  length (with_ids n docs) = length docs.
Proof.
  revert n. induction docs as [|doc docs IH]; intros n; [done|].
  cbn [with_ids length]. by rewrite IH.
Qed.

(** The store after a run of insertions. *)
Lemma create_documents (name : string) (docs : list pydict) (s : Database) :
  h_iter (create_document name) docs (Some s) = (Ok tt, Some (insert_all name docs s)).
Proof.
  revert s. induction docs as [|doc docs IH]; intros s; [done|].
  cbn [h_iter]. unfold h_bind at 1. cbn [create_document].
  destruct (insert_one name doc s) as [oid s1] eqn:Hins.
  rewrite IH. cbn [insert_all foldl]. by rewrite Hins.
Qed.

Section HandlerFacts.

Context `{Pydantic}.
Variable float_repr : float → string.
Variable has_ObjectId : bool.

Lemma list_products_nonempty (s : Database) :
  documents "product" s ≠ [] →
  list_products float_repr (Some s)
  = (format_all float_repr (documents "product" s), Some s).
Proof.
  intros Hne. unfold list_products, h_bind, get_documents.
  destruct (documents "product" s) as [|doc docs] eqn:Hdocs; [done|].
  done.
Qed.

Lemma list_products_empty (s : Database) :
  documents "product" s = [] →
  list_products float_repr (Some s)
  = (format_all float_repr (documents "product" (insert_all "product" seed_records s)),
     Some (insert_all "product" seed_records s))
  ∧ documents "product" (insert_all "product" seed_records s)
    = with_ids (next_oid s) seed_records.
Proof.
  intros Hempty. split.
  - unfold list_products. unfold h_bind at 1. cbn [get_documents].
    rewrite Hempty. cbn [length Nat.eqb]. unfold h_bind at 1.
    unfold h_bind at 1. unfold h_lift at 1. rewrite seed_eq.
    unfold h_bind at 1. by rewrite create_documents.
  - by rewrite documents_insert_all, Hempty.
Qed.


Lemma get_product_store (product_id : string) (db : option Database) :
  (get_product float_repr has_ObjectId product_id db).2 = db.
Proof.
  destruct db as [s|]; [|done]. unfold get_product, h_bind, h_catch, h_lift, find_one.
  destruct has_ObjectId; cbn.
  - destruct (ObjectId_new product_id) as [oid|]; cbn; [|done].
    by destruct (List.find _ _).
  - done.
Qed.

Lemma create_product_store (product : ProductIn.t) (s : Database) :
  (create_product float_repr has_ObjectId product (Some s)).2 = Some s
  ∨ ∃ doc, (create_product float_repr has_ObjectId product (Some s)).2
           = Some (insert_one "product" doc s).2.
Proof.
  unfold create_product. unfold h_bind at 1. unfold h_lift at 1.
  destruct (ProductSchema_model_dump _ _ _ _ _) as [prod|e]; [|by left].
  right. exists (<["image" := of_optional (ProductIn.image product)]> prod).
  unfold h_bind, h_lift, find_one, find_latest, create_document.
  destruct (insert_one _ _ s) as [oid s1]. cbn [snd].
  destruct has_ObjectId; [destruct (ObjectId_new (Bson.to_str oid))|]; done.
Qed.



(** The identifiers of the product collection stay twelve bytes long. *)
Lemma insert_one_ids_valid (doc : pydict) (s : Database) :
  ids_valid s → ids_valid (insert_one "product" doc s).2.
Proof.
  intros Hvalid d o Hin Hid. rewrite documents_insert_one in Hin.
  apply elem_of_app in Hin as [Hin|Hin]; [by eapply Hvalid|].
  apply list_elem_of_singleton in Hin as ->.
  unfold stored in Hid. rewrite lookup_insert_eq in Hid.
  injection Hid as <-. apply generate_valid.
Qed.

Lemma insert_all_ids_valid (docs : list pydict) (s : Database) :
  ids_valid s → ids_valid (insert_all "product" docs s).
Proof.
  revert s. induction docs as [|doc docs IH]; intros s Hvalid; [done|].
  cbn [insert_all foldl]. apply IH. by apply insert_one_ids_valid.
Qed.

Lemma serve_keeps_ids_valid (r : request) (s : Database) :
  ids_valid s →
  ∃ s', serve float_repr has_ObjectId r (Some s) = Some s' ∧ ids_valid s'.
Proof.
  intros Hvalid. destruct r as [|p|i]; cbn [serve].
  - destruct (documents "product" s) as [|doc docs] eqn:Hdocs.
    + destruct (list_products_empty s Hdocs) as [-> _].
      eexists. split; [done|]. by apply insert_all_ids_valid.
    + rewrite list_products_nonempty by by rewrite Hdocs. by exists s.
  - destruct (create_product_store p s) as [->|[doc ->]]; [by exists s|].
    eexists. split; [done|]. by apply insert_one_ids_valid.
  - rewrite get_product_store. by exists s.
Qed.

End HandlerFacts.

Lemma empty_database_ids_valid : ids_valid empty_database.
Proof. intros doc o Hin. by apply elem_of_nil in Hin. Qed.

(** ** Listing, seeding and lookup *)

Lemma fromhex_length (n : nat) (s : string) (bs : list byte) :
  (String.length s ≤ n)%nat →
  Bson.fromhex s = Some bs →
  (2 * length bs ≤ String.length s)%nat
  ∧ (Bson.all_hex s = false → (2 * length bs < String.length s)%nat).
Proof.
  revert s bs. induction n as [|n IH]; intros s bs Hn Hs.
  - destruct s as [|c rest]; [|cbn in Hn; lia].
    injection Hs as <-. by cbn.
  - destruct s as [|c rest]; [injection Hs as <-; by cbn|].
    cbn [Bson.fromhex] in Hs. cbn [String.length] in *.
    destruct (Bson.is_space c).
    + destruct (IH rest bs ltac:(lia) Hs) as [Hle _]. split; intros; lia.
    + destruct rest as [|d rest']; [done|]. cbn [String.length] in *.
      destruct (Bson.hex_value c) as [h|] eqn:Hc; [|done].
      destruct (Bson.hex_value d) as [l|] eqn:Hd; [|done].
      destruct (Byte.of_N (16 * h + l)) as [b|]; [|done].
      destruct (Bson.fromhex rest') as [bs'|] eqn:Hrest; [|done].
      injection Hs as <-. cbn [length].
      destruct (IH rest' bs' ltac:(lia) Hrest) as [Hle Hlt].
      split; [lia|]. cbn [Bson.all_hex]. rewrite Hc, Hd.
      rewrite !bool_decide_eq_true_2 by by eexists.
      cbn [andb]. intros Hhex. specialize (Hlt Hhex). lia.
Qed.

(** A string that is not 24 hexadecimal digits is either refused by the
    constructor or decoded to fewer than twelve bytes. *)
Lemma of_str_malformed (s : string) (o : Bson.ObjectId) :
  Bson.well_formed s = false → Bson.of_str s = Some o → ¬ Bson.valid o.
Proof.
  unfold Bson.well_formed, Bson.of_str, Bson.valid.
  destruct (String.length s =? 24)%nat eqn:Hlen; [|done].
  cbn [andb]. intros Hhex Hs.
  destruct (Bson.fromhex s) as [bs|] eqn:Hbs; [|done].
  injection Hs as <-. cbn [Bson.binary].
  apply Nat.eqb_eq in Hlen.
  destruct (fromhex_length _ s bs (le_n _) Hbs) as [_ Hlt].
  specialize (Hlt Hhex). lia.
Qed.

Lemma find_invalid_id (oid : Bson.ObjectId) (s : Database) :
  ids_valid s → ¬ Bson.valid oid →
  List.find (has_id oid) (documents "product" s) = None.
Proof.
  intros Hvalid Hoid.
  destruct (List.find _ _) as [doc|] eqn:Hfind; [|done].
  apply find_some in Hfind as [Hin Hdoc]. apply list_elem_of_In in Hin.
  unfold has_id in Hdoc.
  destruct (doc !! "_id") as [[| | | | |o]|] eqn:Hid; try done.
  apply bson_eqb_eq in Hdoc as ->. by apply Hvalid in Hid.
Qed.

Section HandlerClaims.

Context `{Pydantic}.
Variable float_repr : float → string.
Variable has_ObjectId : bool.

(** A stored record with the fields of [p] is formatted as [p]. *)
Lemma format_product_of_fields (doc : pydict) (o : Bson.ObjectId) (p : ProductOut.t) :
  doc !! "_id" = Some (VObjectId o) →
  doc !! "title" = Some (VStr (ProductOut.title p)) →
  doc !! "price" = Some (VFloat (ProductOut.price p)) →
  doc !! "category" = Some (VStr (ProductOut.category p)) →
  doc !! "description" = Some (of_optional (ProductOut.description p)) →
  doc !! "image" = Some (of_optional (ProductOut.image p)) →
  doc !! "in_stock" = Some (VBool (ProductOut.in_stock p)) →
  ProductOut.id p = Bson.to_str o →
  _format_product float_repr (ODict doc) = Ok p.
Proof.
  intros Ho Ht Hpr Hc Hde Him Hst Hi.
  destruct (format_product_dict float_repr doc) as (d & -> & Hfields & Hid).
  apply ProductOut_init_Ok.
  rewrite (Hfields "title" (VStr "Untitled")) by in_defaults.
  rewrite (Hfields "price" (VFloat 0)) by in_defaults.
  rewrite (Hfields "category" (VStr "General")) by in_defaults.
  rewrite (Hfields "description" VNone) by in_defaults.
  rewrite (Hfields "image" VNone) by in_defaults.
  rewrite (Hfields "in_stock" (VBool true)) by in_defaults.
  rewrite Hid, Ho, Ht, Hpr, Hc, Hde, Him, Hst, Hi.
  cbn [mbind option_bind field_or default from_option id py_str].
  rewrite !validate_str_exact, validate_float_exact, validate_bool_exact,
    !validate_optional_str_exact.
  done.
Qed.




(** C7, as amended. On an available store, a product id that does not
    have the identifier format is answered with [NotFound] (404): when
    the identifier constructor refuses the string, and, on a store
    whose identifiers are twelve bytes long, for every string that is
    not 24 hexadecimal digits.  On an unavailable store the lookup
    fails with 503 before it looks at the id. *)
Theorem malformed_id_is_not_found (product_id : string) (s : Database) :
  get_product float_repr has_ObjectId product_id None
  = (Raise (HTTPException 503 "Database not available"), None)
  ∧ (Bson.of_str product_id = None →
     get_product float_repr has_ObjectId product_id (Some s)
     = (Raise (HTTPException 404 "Product not found"), Some s))
  ∧ (Bson.well_formed product_id = false → ids_valid s →
     get_product float_repr has_ObjectId product_id (Some s)
     = (Raise (HTTPException 404 "Product not found"), Some s)).
Proof.
  assert (Bson.of_str product_id = None →
     get_product float_repr has_ObjectId product_id (Some s)
     = (Raise (HTTPException 404 "Product not found"), Some s)) as Hrefused.
  { intros Hnone. unfold get_product, h_bind, h_catch, h_lift, ObjectId_new.
    rewrite Hnone. by destruct has_ObjectId. }
  split_and!; [reflexivity|done|].
  intros Hbad Hvalid.
  destruct (Bson.of_str product_id) as [oid|] eqn:Hoid; [|by apply Hrefused].
  unfold get_product, h_bind, h_catch, h_lift, ObjectId_new, find_one.
  destruct has_ObjectId; [|done]. rewrite Hoid.
  by rewrite (find_invalid_id oid s Hvalid (of_str_malformed _ _ Hbad Hoid)).
Qed.

(** C8, as amended. With the store handle at its [None] sentinel the
    listing returns an empty sequence and leaves the handle alone,
    while both product creation and the lookup by id fail with 503;
    of the adapter's own operations the read returns an empty sequence
    and the write fails with [ServiceUnavailable]. *)
Theorem unavailable_store (product : ProductIn.t) (product_id name : string)
    (data : pydict) :
  list_products float_repr None = (Ok [], None)
  ∧ create_product float_repr has_ObjectId product None
    = (Raise (HTTPException 503 "Database not available"), None)
  ∧ get_product float_repr has_ObjectId product_id None
    = (Raise (HTTPException 503 "Database not available"), None)
  ∧ get_documents name None = (Ok [], None)
  ∧ create_document name data None = (Raise ServiceUnavailable, None).
Proof. by split_and!. Qed.

End HandlerClaims.

(** ** Concurrent listings *)

Section Concurrency.

Context `{Pydantic}.
Variable float_repr : float → string.

Lemma step_started_empty (s : Database) :
  documents "product" s = [] →
  listing_step float_repr Started (Some s) = (Seeding seed_records, Some s).
Proof. intros Hempty. cbn [listing_step get_documents]. by rewrite Hempty, seed_eq. Qed.

Lemma step_started_nonempty (s : Database) :
  documents "product" s ≠ [] →
  listing_step float_repr Started (Some s)
  = (Returned (format_all float_repr (documents "product" s)), Some s).
Proof.
  intros Hne. cbn [listing_step get_documents].
  by destruct (documents "product" s).
Qed.

Lemma step_seeding (doc : pydict) (rest : list pydict) (s : Database) :
  listing_step float_repr (Seeding (doc :: rest)) (Some s)
  = (Seeding rest, Some (insert_one "product" doc s).2).
Proof. reflexivity. Qed.

Lemma step_reread (s : Database) :
  listing_step float_repr (Seeding []) (Some s)
  = (Returned (format_all float_repr (documents "product" s)), Some s).
Proof. reflexivity. Qed.

(** A call that runs without interference is [list_products]. *)
Lemma listing_alone (db : option Database) :
  Nat.iter 5 (λ st, listing_step float_repr st.1 st.2) (Started, db)
  = (Returned (list_products float_repr db).1, (list_products float_repr db).2).
Proof.
  destruct db as [s|]; [|reflexivity].
  destruct (documents "product" s) as [|doc docs] eqn:Hdocs.
  - destruct (list_products_empty float_repr s Hdocs) as [-> _].
    rewrite Nat.iter_succ_r. cbn beta. cbn [fst snd].
    rewrite step_started_empty by done. unfold seed_records at 1.
    do 3 (rewrite Nat.iter_succ_r; cbn beta; cbn [fst snd]; rewrite step_seeding).
    rewrite Nat.iter_succ_r. cbn beta. cbn [fst snd]. rewrite step_reread.
    reflexivity.
  - rewrite list_products_nonempty by by rewrite Hdocs.
    rewrite Nat.iter_succ_r. cbn beta. cbn [fst snd].
    rewrite step_started_nonempty by by rewrite Hdocs.
    reflexivity.
Qed.

Lemma sys_step_middle (pre post : list listing) (pc : listing) (db : option Database) :
  system_step float_repr (length pre) (pre ++ pc :: post, db)
  = (pre ++ (listing_step float_repr pc db).1 :: post, (listing_step float_repr pc db).2).
Proof.
  unfold system_step. cbn [fst snd].
  rewrite list_lookup_middle by done.
  destruct (listing_step float_repr pc db) as [pc' db']. cbn [fst snd].
  rewrite insert_app_r_alt by done. by rewrite Nat.sub_diag.
Qed.

(** First phase: every call reads the empty collection. *)
Lemma all_read_empty (s : Database) (m : nat) (pre : list listing) :
  documents "product" s = [] →
  run_schedule float_repr (seq (length pre) m) (pre ++ replicate m Started, Some s)
  = (pre ++ replicate m (Seeding seed_records), Some s).
Proof.
  intros Hempty. revert pre. induction m as [|m IH]; intros pre; [done|].
  cbn [seq replicate]. unfold run_schedule. cbn [foldl].
  rewrite sys_step_middle, step_started_empty by done. cbn [fst snd].
  specialize (IH (pre ++ [Seeding seed_records])).
  rewrite length_app, Nat.add_1_r, <- !app_assoc in IH. by apply IH.
Qed.

(** A call that has read the empty collection inserts the three seeds,
    whatever the collection holds by then. *)
Lemma seeding_runs (s : Database) (pre post : list listing) :
  run_schedule float_repr (replicate 4 (length pre)) (pre ++ Seeding seed_records :: post, Some s)
  = (pre ++ Returned (format_all float_repr
                        (documents "product" (insert_all "product" seed_records s)))
         :: post,
     Some (insert_all "product" seed_records s)).
Proof.
  unfold run_schedule. cbn [replicate foldl]. unfold seed_records at 1.
  do 3 (rewrite sys_step_middle, step_seeding; cbn [fst snd]).
  rewrite sys_step_middle, step_reread. reflexivity.
Qed.

Lemma length_insert_seeds (s : Database) :
  length (documents "product" (insert_all "product" seed_records s))
  = (length (documents "product" s) + 3)%nat.
Proof. by rewrite documents_insert_all, length_app, length_with_ids. Qed.

(** Second phase: the calls complete one after the other. *)
Lemma all_seed (m : nat) (pre : list listing) (s : Database) :
  ∃ calls s',
    run_schedule float_repr (flat_map (λ i, replicate 4 i) (seq (length pre) m))
        (pre ++ replicate m (Seeding seed_records), Some s)
    = (pre ++ calls, Some s')
    ∧ all_returned calls = true
    ∧ length calls = m
    ∧ length (documents "product" s') = (length (documents "product" s) + 3 * m)%nat.
Proof.
  revert pre s. induction m as [|m IH]; intros pre s.
  - exists [], s. cbn. split_and!; [done..|lia].
  - cbn [seq flat_map]. rewrite (replicate_S m). unfold run_schedule.
    rewrite foldl_app.
    fold (run_schedule float_repr (replicate 4 (length pre))
              (pre ++ Seeding seed_records :: replicate m (Seeding seed_records), Some s)).
    rewrite seeding_runs.
    set (r := Returned _). set (s1 := insert_all _ _ s).
    destruct (IH (pre ++ [r]) s1) as (calls & s' & Hrun & Hret & Hlen & Hcount).
    rewrite length_app, Nat.add_1_r, <- !app_assoc in Hrun. cbn [app] in Hrun.
    exists (r :: calls), s'. unfold run_schedule in Hrun. rewrite Hrun.
    split_and!; [done|done|cbn; lia|].
    rewrite Hcount. unfold s1. rewrite length_insert_seeds. lia.
Qed.

(** C6. Concurrent listings can each seed the collection.  With [n]
    calls started on an empty collection, the schedule in which every
    call reads before any call inserts lets all of them complete and
    leaves [3 * n] records in the collection: six for two calls. *)
Theorem concurrent_listings_seed_repeatedly (n : nat) :
  let st := run_schedule float_repr (racing_schedule n) (replicate n Started, Some empty_database) in
  all_returned st.1 = true
  ∧ length st.1 = n
  ∧ product_count st.2 = (3 * n)%nat.
Proof.
  cbn zeta. unfold racing_schedule, run_schedule. rewrite foldl_app.
  pose proof (all_read_empty empty_database n [] eq_refl) as Hread.
  unfold run_schedule in Hread. cbn [app length] in Hread. rewrite Hread.
  destruct (all_seed n [] empty_database) as (calls & s' & Hrun & Hret & Hlen & Hcount).
  unfold run_schedule in Hrun. cbn [app length] in *. rewrite Hrun.
  cbn [fst snd product_count]. by rewrite Hcount.
Qed.

End Concurrency.

(** Two calls, interleaved step by step. *)
Lemma two_listings_seed_twice :
  let st := run_schedule (H := strict_pydantic) (λ _, "0.0") [0; 1; 0; 1; 0; 1; 0; 1; 0; 1]%nat
              ([Started; Started], Some empty_database) in
  all_returned st.1 = true ∧ product_count st.2 = 6%nat.
Proof. vm_compute. by split. Qed.

(** ** The claims on sample stores *)

Lemma sample_store_ids_valid : ids_valid sample_store.
Proof.
  intros doc o Hin Hid.
  change (documents "product" sample_store) with [sample_doc] in Hin.
  apply list_elem_of_singleton in Hin as ->.
  change (sample_doc !! "_id") with (Some (VObjectId sample_oid)) in Hid.
  injection Hid as <-. reflexivity.
Qed.


Lemma malformed_id_is_not_found_witness :
  (Bson.of_str "not-an-id" = None
   ∧ get_product (H := strict_pydantic) (λ _, "0.0") true "not-an-id" (Some sample_store)
     = (Raise (HTTPException 404 "Product not found"), Some sample_store))
  ∧ (Bson.well_formed padded_id = false
     ∧ Bson.of_str padded_id ≠ None
     ∧ get_product (H := strict_pydantic) (λ _, "0.0") true padded_id (Some sample_store)
       = (Raise (HTTPException 404 "Product not found"), Some sample_store)).
Proof.
  destruct (malformed_id_is_not_found (H := strict_pydantic) (λ _, "0.0") true
              "not-an-id" sample_store) as (_ & Hrefused & _).
  destruct (malformed_id_is_not_found (H := strict_pydantic) (λ _, "0.0") true
              padded_id sample_store) as (_ & _ & Hshort).
  split.
  - split; [reflexivity|]. apply Hrefused. reflexivity.
  - split; [reflexivity|]. split; [vm_compute; discriminate|].
    apply Hshort; [reflexivity|exact sample_store_ids_valid].
Defined.

(** On an unavailable store a malformed id is answered with 503, not 404. *)
Lemma malformed_id_on_unavailable_store :
  Bson.well_formed "not-an-id" = false
  ∧ (get_product (H := strict_pydantic) (λ _, "0.0") true "not-an-id" None).1
    = Raise (HTTPException 503 "Database not available")
  ∧ (get_product (H := strict_pydantic) (λ _, "0.0") true "not-an-id" None).1
    ≠ Raise (HTTPException 404 "Product not found").
Proof. split; [reflexivity|]. split; [reflexivity|]. cbn. discriminate. Qed.

(** The lookup is a read, and on an unavailable store it raises. *)
Lemma lookup_on_unavailable_store_raises :
  get_product (H := strict_pydantic) (λ _, "0.0") true (Bson.to_str sample_oid) None
  = (Raise (HTTPException 503 "Database not available"), None)
  ∧ ∀ p, (get_product (H := strict_pydantic) (λ _, "0.0") true
            (Bson.to_str sample_oid) None).1 ≠ Ok p.
Proof. split; [reflexivity|]. intros p. cbn. discriminate. Qed.

(** ** Further properties of the record normalizer *)

Lemma pyval_none_or_not (v : pyval) : v = VNone ∨ v ≠ VNone.
Proof. destruct v; auto. Qed.

Ltac in_product_keys :=
  unfold product_keys; repeat first [apply list_elem_of_here | apply list_elem_of_further].

Section NormalizerExtras.

Context `{Pydantic}.
Variable float_repr : float → string.

Lemma to_id_str_without_native_id (d : pydict) :
  d !! "_id" = None ∨ d !! "_id" = Some VNone →
  _to_id_str float_repr (ODict d) = ODict d.
Proof.
  intros Hid. unfold _to_id_str. cbn [truthy dict_of].
  destruct (negb (bool_decide (size d = 0%nat))); [|done].
  by destruct Hid as [-> | ->].
Qed.

(** X1. The identifier conversion is idempotent on every object it can
    be handed: converting its own result changes nothing. *)
Theorem to_id_str_idempotent (doc : pyobj) :
  _to_id_str float_repr (_to_id_str float_repr doc) = _to_id_str float_repr doc.
Proof.
  destruct doc as [|d|p].
  - reflexivity.
  - destruct (d !! "_id") as [v|] eqn:Hid.
    + destruct (pyval_none_or_not v) as [->|Hv].
      { rewrite (to_id_str_without_native_id d) by auto.
        by rewrite (to_id_str_without_native_id d) by auto. }
      assert (_to_id_str float_repr (ODict d)
              = ODict (<["id" := VStr (py_str float_repr v)]> (delete "_id" d))) as ->.
      { unfold _to_id_str. cbn [truthy dict_of].
        destruct (decide (size d = 0%nat)) as [Hsz|Hsz].
        - apply map_size_empty_iff in Hsz. subst d. by rewrite lookup_empty in Hid.
        - rewrite bool_decide_eq_false_2 by done. cbn [negb]. rewrite Hid.
          by destruct v. }
      apply to_id_str_without_native_id. left.
      rewrite lookup_insert_ne by done. apply lookup_delete_eq.
    + rewrite (to_id_str_without_native_id d) by auto.
      by rewrite (to_id_str_without_native_id d) by auto.
  - rewrite to_id_str_model. apply to_id_str_items.
Qed.

(** X2. On a raw document the identifier conversion touches the keys
    [_id] and [id] only: every other field is passed on as it is.  The
    result never holds a native identifier; when the document has one,
    its string form is published under [id], replacing an [id] the
    document may already carry, and otherwise [id] is left alone. *)
Theorem to_id_str_fields (doc : pydict) :
  ∃ d, _to_id_str float_repr (ODict doc) = ODict d
       ∧ (∀ k, k ≠ "_id" → k ≠ "id" → d !! k = doc !! k)
       ∧ (d !! "_id" = None ∨ d !! "_id" = Some VNone)
       ∧ (∀ v, doc !! "_id" = Some v → v ≠ VNone →
               d !! "id" = Some (VStr (py_str float_repr v)) ∧ d !! "_id" = None)
       ∧ (doc !! "_id" = None ∨ doc !! "_id" = Some VNone → d = doc).
Proof.
  destruct (to_id_str_dict float_repr doc) as (d & Hd & Hsame & Hid).
  exists d. split; [done|]. split; [done|].
  assert (doc !! "_id" = None ∨ doc !! "_id" = Some VNone → d = doc) as Hkeep.
  { intros Hno. rewrite to_id_str_without_native_id in Hd by done.
    by injection Hd. }
  assert (∀ v, doc !! "_id" = Some v → v ≠ VNone → d !! "_id" = None) as Hgone.
  { intros v Hv Hne.
    assert (_to_id_str float_repr (ODict doc)
            = ODict (<["id" := VStr (py_str float_repr v)]> (delete "_id" doc))) as Hd'.
    { unfold _to_id_str. cbn [truthy dict_of].
      destruct (decide (size doc = 0%nat)) as [Hsz|Hsz].
      - apply map_size_empty_iff in Hsz. subst doc. by rewrite lookup_empty in Hv.
      - rewrite bool_decide_eq_false_2 by done. cbn [negb]. rewrite Hv.
        by destruct v. }
    rewrite Hd in Hd'. injection Hd' as ->.
    rewrite lookup_insert_ne by done. apply lookup_delete_eq. }
  split_and!.
  - destruct (doc !! "_id") as [v|] eqn:Hv.
    + destruct (pyval_none_or_not v) as [->|Hne].
      * right. rewrite Hkeep by auto. done.
      * left. by eapply Hgone.
    + left. rewrite Hkeep by auto. done.
  - intros v Hv Hne. split; [|by eapply Hgone].
    rewrite Hid, Hv. by destruct v.
  - done.
Qed.

Lemma ProductOut_init_raises (d : pydict) (e : exn) :
  ProductOut_init d = Raise e → e = ValidationError.
Proof.
  unfold ProductOut_init. destruct (_ ≫= _); [done|]. by intros [= <-].
Qed.

(** X3. A record without an identifier is not turned into a product:
    when the document has no [_id] (or a [None] one) and no [id], the
    normalizer raises [ValidationError], whatever its other fields are.
    [ValidationError] is the only exception a document can cause;
    [None] in place of a document raises [AttributeError]. *)
Theorem format_product_requires_identifier (doc : pydict) :
  (doc !! "_id" = None ∨ doc !! "_id" = Some VNone →
   doc !! "id" = None →
   _format_product float_repr (ODict doc) = Raise ValidationError)
  ∧ (∀ e, _format_product float_repr (ODict doc) = Raise e → e = ValidationError)
  ∧ _format_product float_repr ONone = Raise AttributeError.
Proof.
  destruct (format_product_dict float_repr doc) as (d & Hfmt & _ & Hid).
  split_and!; [|intros e; rewrite Hfmt; apply ProductOut_init_raises|done].
  intros Hno Hnone. rewrite Hfmt.
  destruct (ProductOut_init d) as [p|e] eqn:Hinit.
  - apply ProductOut_init_Ok in Hinit as (_ & _ & _ & _ & _ & _ & Hp).
    rewrite Hid in Hp. destruct Hno as [Hno|Hno]; by rewrite Hno, Hnone in Hp.
  - by apply ProductOut_init_raises in Hinit as ->.
Qed.

Lemma ProductOut_init_ext (d1 d2 : pydict) :
  (∀ k, k ∈ product_keys → k ≠ "_id" → d1 !! k = d2 !! k) →
  ProductOut_init d1 = ProductOut_init d2.
Proof.
  intros Heq. unfold ProductOut_init.
  rewrite (Heq "title"), (Heq "price"), (Heq "category"), (Heq "description"),
    (Heq "image"), (Heq "in_stock"), (Heq "id"); first done; first [done|in_product_keys].
Qed.

(** X4. The normalizer reads eight keys and nothing else: two documents
    that agree on [_id], [id] and the six product fields are
    normalized to the same outcome, so a field the model does not know
    (a timestamp, say) never changes or breaks the product. *)
Theorem format_product_ignores_unknown_fields (doc1 doc2 : pydict) :
  (∀ k, k ∈ product_keys → doc1 !! k = doc2 !! k) →
  _format_product float_repr (ODict doc1) = _format_product float_repr (ODict doc2).
Proof.
  intros Heq.
  destruct (format_product_dict float_repr doc1) as (d1 & -> & Hf1 & Hid1).
  destruct (format_product_dict float_repr doc2) as (d2 & -> & Hf2 & Hid2).
  rewrite (Heq "_id"), (Heq "id") in Hid1 by in_product_keys.
  assert (∀ k dflt, (k, dflt) ∈ defaults → d1 !! k = d2 !! k) as Hsix.
  { intros k dflt Hk. rewrite (Hf1 k dflt Hk), (Hf2 k dflt Hk).
    rewrite Heq; [done|]. unfold defaults in Hk.
    repeat (apply elem_of_cons in Hk as [[= -> ->]|Hk]; [in_product_keys|]).
    by apply elem_of_nil in Hk. }
  apply ProductOut_init_ext. intros k Hk Hne. unfold product_keys in Hk.
  apply elem_of_cons in Hk as [->|Hk]; [done|].
  apply elem_of_cons in Hk as [->|Hk]; [by rewrite Hid1, Hid2|].
  apply elem_of_cons in Hk as [->|Hk]; [by apply (Hsix _ (VStr "Untitled")); in_defaults|].
  apply elem_of_cons in Hk as [->|Hk]; [by apply (Hsix _ (VFloat 0)); in_defaults|].
  apply elem_of_cons in Hk as [->|Hk]; [by apply (Hsix _ (VStr "General")); in_defaults|].
  apply elem_of_cons in Hk as [->|Hk]; [by apply (Hsix _ VNone); in_defaults|].
  apply elem_of_cons in Hk as [->|Hk]; [by apply (Hsix _ VNone); in_defaults|].
  apply elem_of_cons in Hk as [->|Hk]; [by apply (Hsix _ (VBool true)); in_defaults|].
  by apply elem_of_nil in Hk.
Qed.

End NormalizerExtras.

(** ** Further properties of the product handlers *)

Lemma result_mapM_Ok {A B} (f : A → result B) (l : list A) (bs : list B) :
  result_mapM f l = Ok bs ↔ Forall2 (λ a b, f a = Ok b) l bs.
Proof.
  revert bs. induction l as [|a l IH]; intros bs; cbn [result_mapM].
  - split; [intros [= <-]; constructor|by inversion 1].
  - destruct (f a) as [b|e] eqn:Ha; cbn [result_bind].
    + destruct (result_mapM f l) as [bs'|e] eqn:Hl; cbn [result_bind].
      * split.
        -- intros [= <-]. constructor; [done|]. by apply IH.
        -- inversion 1 as [|? b' ? bs'' Hb Hrest]; subst.
           apply IH in Hrest. congruence.
      * split; [done|]. inversion 1 as [|? b' ? bs'' Hb Hrest]; subst.
        by apply IH in Hrest.
    + split; [done|]. inversion 1; congruence.
Qed.

Lemma result_mapM_Raise {A B} (f : A → result B) (l : list A) :
  Exists (λ a, ∃ e, f a = Raise e) l → ∃ e, result_mapM f l = Raise e.
Proof.
  induction 1 as [a l [e He]|a l _ [e IH]]; cbn [result_mapM].
  - rewrite He. by exists e.
  - destruct (f a) as [b|e']; cbn [result_bind]; [|by exists e'].
    rewrite IH. by exists e.
Qed.

Lemma find_first {A} (f : A → bool) (pre post : list A) (x : A) :
  Forall (λ a, f a = false) pre → f x = true →
  List.find f (pre ++ x :: post) = Some x.
Proof.
  induction 1 as [|a l Ha _ IH]; intros Hx; cbn [app List.find].
  - by rewrite Hx.
  - rewrite Ha. by apply IH.
Qed.

Lemma find_nothing {A} (f : A → bool) (l : list A) :
  Forall (λ a, f a = false) l → List.find f l = None.
Proof.
  induction 1 as [|a l Ha _ IH]; [done|]. cbn [List.find]. by rewrite Ha.
Qed.


Lemma documents_insert_one_ne (name other : string) (doc : pydict) (s : Database) :
  other ≠ name → documents other (insert_one name doc s).2 = documents other s.
Proof.
  intros Hne. unfold insert_one, documents at 1. cbn [snd collections].
  by rewrite lookup_insert_ne.
Qed.

Lemma documents_insert_all_ne (name other : string) (docs : list pydict) (s : Database) :
  other ≠ name → documents other (insert_all name docs s) = documents other s.
Proof.
  intros Hne. revert s. induction docs as [|doc docs IH]; intros s; [done|].
  cbn [insert_all foldl]. fold (insert_all name docs (insert_one name doc s).2).
  by rewrite IH, documents_insert_one_ne.
Qed.

Section HandlerExtras.

Context `{Pydantic}.
Variable float_repr : float → string.
Variable has_ObjectId : bool.

(** X5. A listing of a non-empty collection answers record by record:
    when it succeeds it returns one product per stored record, in the
    order of the collection, each the normalization of its record;
    and a single record that cannot be normalized makes the whole
    listing fail with [ValidationError].  Either way the store is left
    as it was. *)
Theorem list_products_record_by_record (s : Database) :
  documents "product" s ≠ [] →
  (list_products float_repr (Some s)).2 = Some s
  ∧ (∀ ps, (list_products float_repr (Some s)).1 = Ok ps ↔
           Forall2 (λ doc p, _format_product float_repr (ODict doc) = Ok p)
             (documents "product" s) ps)
  ∧ (Exists (λ doc, ∃ e, _format_product float_repr (ODict doc) = Raise e)
       (documents "product" s) →
     (list_products float_repr (Some s)).1 = Raise ValidationError).
Proof.
  intros Hne. rewrite list_products_nonempty by done. cbn [fst snd].
  split; [done|]. split.
  - intros ps. apply result_mapM_Ok.
  - intros Hbad.
    destruct (result_mapM_Raise (λ doc, _format_product float_repr (ODict doc)) _ Hbad)
      as [e He].
    unfold format_all. rewrite He. f_equal.
    clear Hbad. revert He. generalize (documents "product" s).
    induction l as [|doc docs IH]; [done|]. cbn [result_mapM].
    destruct (_format_product float_repr (ODict doc)) as [p|e'] eqn:Hdoc;
      cbn [result_bind].
    + destruct (result_mapM _ docs); cbn [result_bind]; [done|].
      intros [= <-]. by apply IH.
    + intros [= <-]. destruct (format_product_dict float_repr doc) as (d & Hd & _).
      rewrite Hd in Hdoc. by apply ProductOut_init_raises in Hdoc.
Qed.

(** X6. Listing is idempotent: a second listing right after a first
    one returns the same answer and leaves the same store, whether the
    first one found the store unavailable, found records, or seeded
    an empty collection. *)
Theorem list_products_twice (db : option Database) :
  list_products float_repr (list_products float_repr db).2
  = list_products float_repr db.
Proof.
  destruct db as [s|]; [|done].
  destruct (documents "product" s) as [|doc docs] eqn:Hdocs.
  - destruct (list_products_empty float_repr s Hdocs) as [Hrun Hseeded].
    rewrite Hrun. cbn [snd]. apply list_products_nonempty. by rewrite Hseeded.
  - rewrite list_products_nonempty by by rewrite Hdocs. cbn [snd].
    apply list_products_nonempty. by rewrite Hdocs.
Qed.

Lemma create_document_some (name : string) (data : pydict) (s : Database) :
  create_document name data (Some s)
  = (Ok (Bson.to_str (Bson.generate (next_oid s))), Some (insert_one name data s).2).
Proof. reflexivity. Qed.

Lemma format_created (n : N) (product : ProductIn.t) :
  _format_product float_repr (ODict (stored n (created_record product)))
  = Ok (created_product n product).
Proof.
  destruct product as [t pr c de im st].
  eapply format_product_of_fields; reflexivity.
Qed.


(** X8. The lookup reads and never writes.  With a valid identifier
    in string form it answers with the normalization of the first
    record of the collection that carries this identifier, and with
    404 when no record carries it; when [ObjectId] could not be
    imported it answers 404 for every id, stored or not. *)
Theorem get_product_by_identifier (oid : Bson.ObjectId) (s : Database) :
  Bson.valid oid →
  (∀ product_id db, (get_product float_repr has_ObjectId product_id db).2 = db)
  ∧ (∀ pre doc post,
       documents "product" s = pre ++ doc :: post →
       Forall (λ d, has_id oid d = false) pre →
       doc !! "_id" = Some (VObjectId oid) →
       get_product float_repr true (Bson.to_str oid) (Some s)
       = (_format_product float_repr (ODict doc), Some s))
  ∧ (Forall (λ d, has_id oid d = false) (documents "product" s) →
     get_product float_repr true (Bson.to_str oid) (Some s)
     = (Raise (HTTPException 404 "Product not found"), Some s))
  ∧ (∀ product_id,
       get_product float_repr false product_id (Some s)
       = (Raise (HTTPException 404 "Product not found"), Some s)).
Proof.
  intros Hvalid.
  assert (ObjectId_new (Bson.to_str oid) = Ok oid) as Hnew.
  { unfold ObjectId_new. by rewrite of_str_to_str. }
  split_and!.
  - intros product_id db. apply get_product_store.
  - intros pre doc post Hdocs Hpre Hid.
    unfold get_product. cbv beta iota zeta delta [h_bind h_lift h_catch find_one].
    rewrite Hnew. cbv beta iota. rewrite Hdocs, find_first; [done|done|].
    unfold has_id. rewrite Hid. by apply bson_eqb_eq.
  - intros Hnone.
    unfold get_product. cbv beta iota zeta delta [h_bind h_lift h_catch find_one].
    rewrite Hnew. cbv beta iota. by rewrite find_nothing.
  - done.
Qed.

(** X9. The handlers only ever append to the product collection.
    After any sequence of requests on an available store the records
    that were there are still there, unchanged and in the same order,
    in front of at most three new records per request; every other
    collection is as it was, and the store's counter has not gone
    back.  An unavailable store stays unavailable. *)
Theorem handlers_only_append (rs : list request) (s : Database) :
  (∃ s' new,
     foldl (λ db r, serve float_repr has_ObjectId r db) (Some s) rs = Some s'
     ∧ documents "product" s' = documents "product" s ++ new
     ∧ (length new ≤ 3 * length rs)%nat
     ∧ (∀ name, name ≠ "product" → documents name s' = documents name s)
     ∧ (next_oid s ≤ next_oid s')%N)
  ∧ foldl (λ db r, serve float_repr has_ObjectId r db) None rs = None.
Proof.
  split.
  - revert s. induction rs as [|r rs IH]; intros s.
    { exists s, []. rewrite app_nil_r. by split_and!. }
    assert (∃ s1 new1, serve float_repr has_ObjectId r (Some s) = Some s1
              ∧ documents "product" s1 = documents "product" s ++ new1
              ∧ (length new1 ≤ 3)%nat
              ∧ (∀ name, name ≠ "product" → documents name s1 = documents name s)
              ∧ (next_oid s ≤ next_oid s1)%N) as (s1 & new1 & Hs1 & Hdocs1 & Hlen1 & Hoth1 & Hn1).
    { destruct r as [|p|i]; cbn [serve].
      - destruct (documents "product" s) as [|doc docs] eqn:Hdocs.
        + destruct (list_products_empty float_repr s Hdocs) as [-> Hseeded].
          exists (insert_all "product" seed_records s), (with_ids (next_oid s) seed_records).
          rewrite Hseeded. split_and!; [done|done|by rewrite length_with_ids| |].
          * intros name Hne. by apply documents_insert_all_ne.
          * cbn. lia.
        + rewrite list_products_nonempty by by rewrite Hdocs.
          exists s, []. rewrite Hdocs, app_nil_r. split_and!; [done|done|cbn; lia|done|lia].
      - destruct (create_product_store float_repr has_ObjectId p s) as [->|[doc ->]].
        + exists s, []. rewrite app_nil_r. split_and!; [done|done|cbn; lia|done|lia].
        + eexists _, [_]. split_and!; [done|apply documents_insert_one|cbn; lia| |].
          * intros name Hne. by apply documents_insert_one_ne.
          * cbn. lia.
      - rewrite get_product_store. exists s, []. rewrite app_nil_r.
        split_and!; [done|done|cbn; lia|done|lia]. }
    cbn [foldl]. rewrite Hs1.
    destruct (IH s1) as (s' & new & Hs' & Hdocs & Hlen & Hoth & Hn).
    exists s', (new1 ++ new). rewrite Hs', Hdocs, Hdocs1, <- app_assoc.
    split_and!; [done|done|rewrite length_app; cbn [length]; lia| |lia].
    intros name Hne. by rewrite Hoth, Hoth1.
  - induction rs as [|r rs IH]; [done|]. cbn [foldl]. by destruct r.
Qed.

End HandlerExtras.

(** X10. The total of a checkout that returns is the integer [0]
    exactly when the cart is empty; for every non-empty cart it is a
    float. *)
Theorem checkout_total_kind (float_sum : float → list float → float)
    (req : CheckoutRequest.t) (r : CheckoutResponse.t) :
  checkout float_sum req = Ok r →
  (CheckoutRequest.items req = [] → CheckoutResponse.total r = PyNum.Int 0)
  ∧ (CheckoutRequest.items req ≠ [] → ∃ x, CheckoutResponse.total r = PyNum.Float x)
  ∧ (CheckoutResponse.total r = PyNum.Int 0 ↔ CheckoutRequest.items req = []).
Proof.
  unfold checkout. intros Hr.
  destruct (result_mapM line_total (CheckoutRequest.items req)) as [lines|] eqn:Hl; [|done].
  cbn [result_bind] in Hr. injection Hr as <-. cbn [CheckoutResponse.total].
  destruct (CheckoutRequest.items req) as [|i l].
  - injection Hl as <-. by split_and!.
  - cbn [result_mapM] in Hl. destruct (line_total i); [|done]. cbn [result_bind] in Hl.
    destruct (result_mapM line_total l); [|done]. injection Hl as <-.
    cbn [PyNum.sum PyNum.round2]. split_and!; [done|by eexists|done].
Qed.


(** ** The diagnostic endpoint *)




Section TestDatabaseFacts.

Variable db_name : Database → outcome (option string).
Variable list_collection_names : Database → outcome (list string).
Variable getenv : string → option string.


End TestDatabaseFacts.

(** X12. The two configuration fields of the diagnostic depend on the
    environment alone.  Whatever the store handle is and whatever its
    probes answer, [database_url] and [database_name] say whether the
    variables [DATABASE_URL] and [DATABASE_NAME] are set to a non-empty
    value: neither the name of the database nor the "Configured" mark
    written earlier ever reaches the caller, and neither field is
    [None]. *)
Theorem test_database_environment_fields
    (db_name1 db_name2 : Database → outcome (option string))
    (list_names1 list_names2 : Database → outcome (list string))
    (getenv : string → option string) (db1 db2 : option Database) :
  let r1 := test_database db_name1 list_names1 getenv db1 in
  let r2 := test_database db_name2 list_names2 getenv db2 in
  Diagnostics.database_url r1 = Diagnostics.database_url r2
  ∧ Diagnostics.database_name r1 = Diagnostics.database_name r2
  ∧ Diagnostics.database_url r1
    = Some (if env_set getenv "DATABASE_URL" then "✅ Set" else "❌ Not Set")
  ∧ Diagnostics.database_name r1
    = Some (if env_set getenv "DATABASE_NAME" then "✅ Set" else "❌ Not Set")
  ∧ (Diagnostics.database_url r1 = Some "✅ Set" ↔
       ∃ v, getenv "DATABASE_URL" = Some v ∧ v ≠ "")
  ∧ (Diagnostics.database_name r1 = Some "✅ Set" ↔
       ∃ v, getenv "DATABASE_NAME" = Some v ∧ v ≠ "").
Proof.
  cbn zeta. unfold test_database.
  cbn [Diagnostics.set_database_url Diagnostics.set_database_name
       Diagnostics.database_url Diagnostics.database_name].
  split_and!; try done.
  - unfold env_set. destruct (getenv "DATABASE_URL") as [[|c v]|].
    + split; [done|]. by intros (? & [= <-] & ?).
    + split; [intros _; by eexists|done].
    + split; [done|]. by intros (? & ? & _).
  - unfold env_set. destruct (getenv "DATABASE_NAME") as [[|c v]|].
    + split; [done|]. by intros (? & [= <-] & ?).
    + split; [intros _; by eexists|done].
    + split; [done|]. by intros (? & ? & _).
Qed.

(** ** Every interleaving of concurrent listings *)

Lemma sum_list_middle {A} (f : A → nat) (pre post : list A) (x : A) :
  sum_list_with f (pre ++ x :: post)
  = (sum_list_with f pre + f x + sum_list_with f post)%nat.
Proof. rewrite sum_list_with_app. cbn. lia. Qed.

Lemma sum_unread_le (calls : list listing) :
  (sum_list_with unread calls ≤ length calls)%nat.
Proof.
  induction calls as [|pc calls IH]; [done|]. cbn [sum_list_with length].
  destruct pc; cbn [unread]; lia.
Qed.

Lemma all_returned_sums (calls : list listing) :
  all_returned calls = true →
  sum_list_with outstanding calls = 0%nat ∧ sum_list_with unread calls = 0%nat.
Proof.
  induction calls as [|pc calls IH]; [done|]. cbn [all_returned forallb].
  destruct pc as [| |r]; cbn [andb]; [done|done|].
  intros Hall. destruct (IH Hall) as [Hout Hunread].
  cbn [sum_list_with outstanding unread]. lia.
Qed.

Section EveryInterleaving.

Context `{Pydantic}.
Variable float_repr : float → string.

(** One step of one call, by cases. *)
Lemma listing_step_cases (pc : listing) (s : Database) :
  ∃ pc' s', listing_step float_repr pc (Some s) = (pc', Some s')
    ∧ ((pc = Started ∧ documents "product" s = [] ∧ pc' = Seeding seed_records ∧ s' = s)
       ∨ (pc = Started ∧ documents "product" s ≠ [] ∧ (∃ r, pc' = Returned r) ∧ s' = s)
       ∨ (∃ doc rest, pc = Seeding (doc :: rest) ∧ pc' = Seeding rest
                      ∧ length (documents "product" s')
                        = S (length (documents "product" s)))
       ∨ (pc = Seeding [] ∧ (∃ r, pc' = Returned r) ∧ s' = s)
       ∨ ((∃ r, pc = Returned r) ∧ pc' = pc ∧ s' = s)).
Proof.
  destruct pc as [|[|doc rest]|r].
  - destruct (documents "product" s) as [|d docs] eqn:Hdocs.
    + eexists _, _. split; [by apply step_started_empty|]. by left.
    + eexists _, _. split; [apply step_started_nonempty; by rewrite Hdocs|].
      right; left. split_and!; [done|done|by eexists|done].
  - eexists _, _. split; [apply step_reread|].
    do 3 right; left. split_and!; [done|by eexists|done].
  - eexists _, _. split; [apply step_seeding|].
    do 2 right; left. exists doc, rest. split_and!; [done|done|].
    rewrite documents_insert_one, length_app. cbn. lia.
  - eexists _, _. split; [done|]. do 4 right. split_and!; [by eexists|done|done].
Qed.

Lemma seeders_step (i k : nat) (st : list listing * option Database) :
  seeders k st → ∃ k', seeders k' (system_step float_repr i st).
Proof.
  destruct st as [calls db]. intros (s & Hdb & Hsum & Hk & Hzero).
  cbn [fst snd] in *. subst db. unfold system_step. cbn [fst snd].
  destruct (calls !! i) as [pc|] eqn:Hi;
    [|exists k, s; by split_and!].
  pose proof (take_drop_middle calls i pc Hi) as Hsplit.
  assert (i < length calls)%nat as Hlt by by eapply lookup_lt_Some.
  destruct (listing_step_cases pc s) as (pc' & s' & -> & Hcase).
  rewrite insert_take_drop by done.
  set (pre := take i calls) in *. set (post := drop (S i) calls) in *.
  rewrite <- Hsplit in Hsum, Hk, Hzero.
  rewrite !sum_list_middle, length_app in *. cbn [length] in *.
  pose proof (sum_unread_le pre) as Hpre. pose proof (sum_unread_le post) as Hpost.
  destruct Hcase as [(-> & Hempty & -> & ->)|[(-> & Hfull & [r ->] & ->)
    |[(doc & rest & -> & -> & Hlen)|[(-> & [r ->] & ->)|([r ->] & -> & ->)]]]];
    cbn [outstanding unread length] in *.
  - exists (S k), s. cbn [fst snd]. rewrite !sum_list_middle, length_app.
    cbn [outstanding unread length]. change (length seed_records) with 3%nat.
    split_and!; [done|lia|lia|lia].
  - exists k, s. cbn [fst snd]. rewrite !sum_list_middle, length_app.
    cbn [outstanding unread length].
    assert (length (documents "product" s) ≠ 0)%nat
      by by destruct (documents "product" s).
    split_and!; [done|lia|lia|lia].
  - exists k, s'. cbn [fst snd]. rewrite !sum_list_middle, length_app.
    cbn [outstanding unread length]. split_and!; [done|lia|lia|lia].
  - exists k, s. cbn [fst snd]. rewrite !sum_list_middle, length_app.
    cbn [outstanding unread length]. split_and!; [done|lia|lia|lia].
  - exists k, s. cbn [fst snd]. rewrite !sum_list_middle, length_app.
    cbn [outstanding unread length]. split_and!; [done|lia|lia|lia].
Qed.

Lemma seeders_run (schedule : list nat) (k : nat) (st : list listing * option Database) :
  seeders k st → ∃ k', seeders k' (run_schedule float_repr schedule st).
Proof.
  revert k st. induction schedule as [|i schedule IH]; intros k st Hst.
  - by exists k.
  - unfold run_schedule. cbn [foldl].
    destruct (seeders_step i k st Hst) as [k1 Hk1]. by apply (IH k1).
Qed.

Lemma length_system_step (i : nat) (st : list listing * option Database) :
  length (system_step float_repr i st).1 = length st.1.
Proof.
  unfold system_step. destruct (st.1 !! i) as [pc|]; [|done].
  destruct (listing_step float_repr pc st.2). cbn [fst]. apply length_insert.
Qed.

Lemma length_run_schedule (schedule : list nat) (st : list listing * option Database) :
  length (run_schedule float_repr schedule st).1 = length st.1.
Proof.
  revert st. induction schedule as [|i schedule IH]; intros st; [done|].
  unfold run_schedule. cbn [foldl].
  fold (run_schedule float_repr schedule (system_step float_repr i st)).
  by rewrite IH, length_system_step.
Qed.

(** X13. Whatever the interleaving of [n] listing calls started on an
    empty product collection, the collection never holds more than
    [3 * n] records and the store stays available; and once all calls
    have returned it holds a whole number of seed sets: [3 * k]
    records for some [k] between one and [n]. *)
Theorem interleaved_listings_bounds (schedule : list nat) (n : nat) (s : Database) :
  documents "product" s = [] →
  let st := run_schedule float_repr schedule (replicate n Started, Some s) in
  (product_count st.2 ≤ 3 * n)%nat
  ∧ (∃ s', st.2 = Some s')
  ∧ (all_returned st.1 = true → n ≠ 0%nat →
     ∃ k, (1 ≤ k ≤ n)%nat ∧ product_count st.2 = (3 * k)%nat).
Proof.
  intros Hempty. cbn zeta.
  assert (seeders 0 (replicate n Started, Some s)) as Hinit.
  { exists s. cbn [fst snd]. rewrite Hempty, length_replicate.
    assert (sum_list_with outstanding (replicate n Started) = 0%nat
            ∧ sum_list_with unread (replicate n Started) = n) as [-> ->].
    { clear. induction n as [|n [IH1 IH2]]; [done|]. cbn. rewrite IH1, IH2. done. }
    split_and!; [done|done|lia|done]. }
  destruct (seeders_run schedule 0 _ Hinit) as (k & s' & Hdb & Hsum & Hk & Hzero).
  pose proof (length_run_schedule schedule (replicate n Started, Some s)) as Hlen.
  cbn [fst] in Hlen. rewrite length_replicate in Hlen.
  rewrite Hlen in Hk, Hzero. rewrite Hdb. cbn [product_count].
  split_and!; [lia|by exists s'|].
  intros Hall Hn. destruct (all_returned_sums _ Hall) as [Hout Hunread].
  rewrite Hout in Hsum. rewrite Hunread in Hk, Hzero.
  exists k. split; [|lia]. split; [|lia].
  destruct k; [|lia]. specialize (Hzero eq_refl). lia.
Qed.

End EveryInterleaving.

(** ** Creating, listing and fetching together *)

Section Composition.

Context `{Pydantic}.
Variable float_repr : float → string.
Variable has_ObjectId : bool.

Lemma format_all_snoc (docs : list pydict) (doc : pydict)
    (ps : list ProductOut.t) (p : ProductOut.t) :
  format_all float_repr docs = Ok ps →
  _format_product float_repr (ODict doc) = Ok p →
  format_all float_repr (docs ++ [doc]) = Ok (ps ++ [p]).
Proof.
  unfold format_all. rewrite !result_mapM_Ok. intros Hps Hp.
  apply Forall2_app; [done|]. by repeat constructor.
Qed.

Lemma create_product_accepted (product : ProductIn.t) (s : Database) :
  (0 <=? ProductIn.price product)%float = true →
  (create_product float_repr has_ObjectId product (Some s)).2
  = Some (insert_one "product" (created_record product) s).2.
Proof.
  intros Hprice. unfold create_product, ProductSchema_model_dump. rewrite Hprice.
  fold (created_record product).
  cbv beta iota zeta delta [h_bind h_lift].
  fold (created_record product).
  rewrite create_document_some. cbv beta iota.
  destruct has_ObjectId.
  - destruct (ObjectId_new _); [|done]. cbv beta iota delta [find_one].
    by destruct (List.find _ _).
  - cbv beta iota delta [find_latest]. by destruct (last _).
Qed.

(** X14. A created product shows up last in the next listing.  When
    the records already stored normalize to [ps], the listing that
    follows an accepted [create_product] returns [ps] followed by the
    new product and changes nothing; in particular a product created
    into an empty collection is listed alone, and the demonstration
    records are never seeded.  (The schema, which is not among the
    sources, is taken to accept the product when its price is not
    negative.) *)
Theorem create_then_list (product : ProductIn.t) (s : Database)
    (ps : list ProductOut.t) :
  (0 <=? ProductIn.price product)%float = true →
  format_all float_repr (documents "product" s) = Ok ps →
  let db' := (create_product float_repr has_ObjectId product (Some s)).2 in
  list_products float_repr db'
  = (Ok (ps ++ [created_product (next_oid s) product]), db')
  ∧ product_count db' = S (length (documents "product" s)).
Proof.
  intros Hprice Hps. cbn zeta. rewrite create_product_accepted by done.
  cbn [product_count]. rewrite documents_insert_one.
  split; [|rewrite length_app; cbn; lia].
  rewrite list_products_nonempty; rewrite documents_insert_one;
    [|by destruct (documents "product" s)].
  by rewrite (format_all_snoc _ _ ps (created_product (next_oid s) product) Hps
                (format_created float_repr _ _)).
Qed.

Lemma get_product_first (oid : Bson.ObjectId) (s : Database)
    (pre post : list pydict) (doc : pydict) :
  Bson.valid oid →
  documents "product" s = pre ++ doc :: post →
  Forall (λ d, has_id oid d = false) pre →
  doc !! "_id" = Some (VObjectId oid) →
  get_product float_repr true (Bson.to_str oid) (Some s)
  = (_format_product float_repr (ODict doc), Some s).
Proof.
  intros Hvalid Hdocs Hpre Hid.
  unfold get_product. cbv beta iota zeta delta [h_bind h_lift h_catch find_one].
  unfold ObjectId_new. rewrite of_str_to_str by done. cbv beta iota.
  rewrite Hdocs, find_first; [done|done|].
  unfold has_id. rewrite Hid. by apply bson_eqb_eq.
Qed.

Lemma format_product_id (doc : pydict) (o : Bson.ObjectId) (p : ProductOut.t) :
  doc !! "_id" = Some (VObjectId o) →
  _format_product float_repr (ODict doc) = Ok p →
  ProductOut.id p = Bson.to_str o.
Proof.
  intros Hid Hp.
  destruct (format_product_dict float_repr doc) as (d & Hfmt & _ & Hd).
  rewrite Hfmt in Hp. apply ProductOut_init_Ok in Hp as (_ & _ & _ & _ & _ & _ & Hp).
  rewrite Hd, Hid in Hp. cbn in Hp. rewrite validate_str_exact in Hp.
  by injection Hp.
Qed.

(** X15. What a listing shows can be fetched.  On a store whose
    records each carry a twelve-byte identifier of their own, every
    product returned by a listing of the non-empty collection is
    returned again, field for field, by [get_product] with that
    product's [id]. *)
Theorem listed_products_can_be_fetched (s : Database) (ps : list ProductOut.t)
    (p : ProductOut.t) :
  identified (documents "product" s) →
  documents "product" s ≠ [] →
  (list_products float_repr (Some s)).1 = Ok ps →
  p ∈ ps →
  get_product float_repr true (ProductOut.id p) (Some s) = (Ok p, Some s).
Proof.
  intros Hident Hne Hlist Hp.
  rewrite list_products_nonempty in Hlist by done. cbn [fst] in Hlist.
  apply result_mapM_Ok in Hlist.
  apply list_elem_of_lookup in Hp as [i Hi].
  destruct (Forall2_lookup_r _ _ _ _ _ Hlist Hi) as (doc & Hdoc & Hfmt).
  destruct (Hident i doc Hdoc) as (o & Hid & Hvalid & Huniq).
  rewrite (format_product_id doc o p Hid Hfmt), <- Hfmt.
  apply (get_product_first o s (take i (documents "product" s))
           (drop (S i) (documents "product" s))); [done| |  |done].
  - symmetry. by apply take_drop_middle.
  - apply Forall_forall. intros d Hd.
    apply list_elem_of_lookup in Hd as [j Hj].
    pose proof (lookup_lt_Some _ _ _ Hj) as Hlt. rewrite length_take in Hlt.
    rewrite lookup_take_lt in Hj by lia.
    destruct (has_id o d) eqn:Hhas; [|done]. exfalso.
    unfold has_id in Hhas. destruct (d !! "_id") as [[| | | | |o']|] eqn:Hd'; try done.
    apply bson_eqb_eq in Hhas as ->. specialize (Huniq j d Hj Hd'). lia.
Qed.

End Composition.

(** ** The further properties on sample data *)

Lemma to_id_str_fields_witness :
  ∃ d, _to_id_str (λ _, "0.0") (ODict cluttered_doc) = ODict d
       ∧ d !! "created_at" = Some (VInt 1715004242)
       ∧ d !! "id" = Some (VStr (Bson.to_str sample_oid))
       ∧ d !! "_id" = None.
Proof.
  destruct (to_id_str_fields (λ _, "0.0") cluttered_doc) as (d & Hd & Hsame & _ & Hid & _).
  exists d. split; [exact Hd|].
  split; [rewrite Hsame; [reflexivity|discriminate|discriminate]|].
  exact (Hid (VObjectId sample_oid) eq_refl ltac:(discriminate)).
Defined.

Lemma format_product_requires_identifier_witness :
  _format_product (H := strict_pydantic) (λ _, "0.0") (ODict anonymous_doc)
  = Raise ValidationError.
Proof.
  apply (format_product_requires_identifier (H := strict_pydantic) (λ _, "0.0") anonymous_doc).
  - left. reflexivity.
  - reflexivity.
Defined.

Lemma format_product_ignores_unknown_fields_witness :
  cluttered_doc !! "created_at" ≠ tidy_doc !! "created_at"
  ∧ _format_product (H := strict_pydantic) (λ _, "0.0") (ODict cluttered_doc)
    = _format_product (H := strict_pydantic) (λ _, "0.0") (ODict tidy_doc).
Proof.
  split; [vm_compute; discriminate|].
  apply (format_product_ignores_unknown_fields (H := strict_pydantic)).
  intros k Hk. unfold product_keys in Hk.
  repeat (apply elem_of_cons in Hk as [->|Hk]; [reflexivity|]).
  by apply elem_of_nil in Hk.
Defined.

Lemma list_products_record_by_record_witness :
  documents "product" seeded_store ≠ []
  ∧ (list_products (H := strict_pydantic) (λ _, "0.0") (Some seeded_store)).2
    = Some seeded_store
  ∧ Forall2 (λ doc p, _format_product (H := strict_pydantic) (λ _, "0.0") (ODict doc) = Ok p)
      (documents "product" seeded_store) (seed_products 0).
Proof.
  assert (documents "product" seeded_store ≠ []) as Hne by (vm_compute; discriminate).
  destruct (list_products_record_by_record (H := strict_pydantic) (λ _, "0.0")
              seeded_store Hne) as (Hstore & Hall & _).
  split; [exact Hne|]. split; [exact Hstore|].
  apply Hall. vm_compute. reflexivity.
Defined.


Lemma get_product_by_identifier_witness :
  Bson.valid sample_oid
  ∧ get_product (H := strict_pydantic) (λ _, "0.0") true (Bson.to_str sample_oid)
      (Some sample_store)
    = (_format_product (H := strict_pydantic) (λ _, "0.0") (ODict sample_doc),
       Some sample_store)
  ∧ get_product (H := strict_pydantic) (λ _, "0.0") true (Bson.to_str sample_oid)
      (Some seeded_store)
    = (Raise (HTTPException 404 "Product not found"), Some seeded_store).
Proof.
  assert (Bson.valid sample_oid) as Hvalid by reflexivity.
  destruct (get_product_by_identifier (H := strict_pydantic) (λ _, "0.0") true
              sample_oid sample_store Hvalid) as (_ & Hfound & _).
  destruct (get_product_by_identifier (H := strict_pydantic) (λ _, "0.0") true
              sample_oid seeded_store Hvalid) as (_ & _ & Hmissing & _).
  split; [exact Hvalid|]. split.
  - apply (Hfound [] sample_doc []); [reflexivity|constructor|reflexivity].
  - apply Hmissing. repeat constructor.
Defined.

Lemma handlers_only_append_witness :
  ∃ s' new,
    foldl (λ db r, serve (H := strict_pydantic) (λ _, "0.0") true r db) (Some sample_store)
      [GetProducts; PostProduct sample_product; GetProduct "1"] = Some s'
    ∧ documents "product" s' = documents "product" sample_store ++ new
    ∧ (length new ≤ 9)%nat
    ∧ documents "orders" s' = documents "orders" sample_store.
Proof.
  destruct (handlers_only_append (H := strict_pydantic) (λ _, "0.0") true
              [GetProducts; PostProduct sample_product; GetProduct "1"] sample_store)
    as [(s' & new & Hrun & Hdocs & Hlen & Hother & _) _].
  exists s', new. split; [exact Hrun|]. split; [exact Hdocs|]. split; [exact Hlen|].
  apply Hother. discriminate.
Defined.

Lemma checkout_total_kind_witness :
  ∃ r, checkout PyNum.plain_sum demo_request = Ok r
       ∧ CheckoutRequest.items demo_request ≠ []
       ∧ ∃ x, CheckoutResponse.total r = PyNum.Float x.
Proof.
  eexists. split; [vm_compute; reflexivity|].
  assert (CheckoutRequest.items demo_request ≠ []) as Hne by discriminate.
  split; [exact Hne|].
  exact (proj1 (proj2 (checkout_total_kind PyNum.plain_sum demo_request _
                         ltac:(vm_compute; reflexivity))) Hne).
Defined.


Lemma test_database_environment_fields_witness :
  Diagnostics.database_url
    (test_database healthy_name twelve_collections sample_env (Some empty_database))
  = Some "✅ Set"
  ∧ Diagnostics.database_name
      (test_database healthy_name twelve_collections sample_env (Some empty_database))
    = Diagnostics.database_name
        (test_database healthy_name failing_collections sample_env None)
  ∧ Diagnostics.database_name
      (test_database healthy_name twelve_collections sample_env (Some empty_database))
    = Some "❌ Not Set".
Proof.
  destruct (test_database_environment_fields healthy_name healthy_name
              twelve_collections failing_collections sample_env
              (Some empty_database) None) as (_ & Hname & _ & Hvalue & Hurl & _).
  split; [apply Hurl; eexists; split; [reflexivity|discriminate]|].
  split; [exact Hname|exact Hvalue].
Defined.

Lemma interleaved_listings_bounds_witness :
  let st := run_schedule (H := strict_pydantic) (λ _, "0.0") [0; 0; 1; 0; 2; 0; 0; 1; 2]%nat
              (replicate 3 Started, Some empty_database) in
  all_returned st.1 = true
  ∧ (product_count st.2 ≤ 9)%nat
  ∧ ∃ k, (1 ≤ k ≤ 3)%nat ∧ product_count st.2 = (3 * k)%nat.
Proof.
  destruct (interleaved_listings_bounds (H := strict_pydantic) (λ _, "0.0")
              [0; 0; 1; 0; 2; 0; 0; 1; 2]%nat 3 empty_database eq_refl)
    as (Hle & _ & Hall).
  assert (all_returned
            (run_schedule (H := strict_pydantic) (λ _, "0.0") [0; 0; 1; 0; 2; 0; 0; 1; 2]%nat
               (replicate 3 Started, Some empty_database)).1 = true) as Hret
    by (vm_compute; reflexivity).
  split; [exact Hret|]. split; [exact Hle|].
  exact (Hall Hret ltac:(discriminate)).
Defined.

Lemma create_then_list_witness :
  (0 <=? ProductIn.price sample_product)%float = true
  ∧ format_all (H := strict_pydantic) (λ _, "0.0") (documents "product" empty_database)
    = Ok []
  ∧ list_products (H := strict_pydantic) (λ _, "0.0")
      (create_product (H := strict_pydantic) (λ _, "0.0") true sample_product
         (Some empty_database)).2
    = (Ok [created_product 0 sample_product],
       (create_product (H := strict_pydantic) (λ _, "0.0") true sample_product
          (Some empty_database)).2).
Proof.
  assert ((0 <=? ProductIn.price sample_product)%float = true) as Hprice by reflexivity.
  assert (format_all (H := strict_pydantic) (λ _, "0.0")
            (documents "product" empty_database) = Ok []) as Hnone by reflexivity.
  split; [exact Hprice|]. split; [exact Hnone|].
  exact (proj1 (create_then_list (H := strict_pydantic) (λ _, "0.0") true sample_product
                  empty_database [] Hprice Hnone)).
Defined.

Lemma seeded_store_identified : identified (documents "product" seeded_store).
Proof.
  change (documents "product" seeded_store) with (with_ids 0 seed_records).
  unfold seed_records. cbn [with_ids].
  intros i doc Hi.
  destruct i as [|[|[|i]]]; [| | |done]; injection Hi as <-;
    (eexists; split; [reflexivity|]; split; [reflexivity|];
     intros j doc' Hj Hid;
     destruct j as [|[|[|j]]]; [| | |done]; injection Hj as <-;
     first [reflexivity | vm_compute in Hid; discriminate]).
Qed.

Lemma listed_products_can_be_fetched_witness :
  identified (documents "product" seeded_store)
  ∧ (list_products (H := strict_pydantic) (λ _, "0.0") (Some seeded_store)).1
    = Ok (seed_products 0)
  ∧ ∃ p, seed_products 0 !! 1%nat = Some p
         ∧ ProductOut.title p = "Monochrome Sneakers"
         ∧ get_product (H := strict_pydantic) (λ _, "0.0") true (ProductOut.id p)
             (Some seeded_store)
           = (Ok p, Some seeded_store).
Proof.
  assert ((list_products (H := strict_pydantic) (λ _, "0.0") (Some seeded_store)).1
          = Ok (seed_products 0)) as Hlist by (vm_compute; reflexivity).
  split; [exact seeded_store_identified|]. split; [exact Hlist|].
  eexists. split; [reflexivity|]. split; [reflexivity|].
  apply (listed_products_can_be_fetched (H := strict_pydantic) (λ _, "0.0")
           seeded_store (seed_products 0) _ seeded_store_identified);
    [vm_compute; discriminate|exact Hlist|].
  apply list_elem_of_further, list_elem_of_here.
Defined.
